(** * The EasyOCR HTTP server: request-to-result pipeline

    A shallow embedding of [easyocr-server/main.py]: the JSON hook
    [NumpyEncoder.default], the engine singleton with [initialize_ocr],
    the two handlers [health_check] and [process_ocr], and the inline
    bounding-box and response assembly of [process_ocr].

    External libraries (easyocr, werkzeug, base64, the clock) enter as
    parameters; Python values, the file system and exceptions are
    modelled explicitly. *)

From Stdlib Require Import ZArith QArith Qround Qminmax Qabs String Ascii Lia.
From Stdlib Require Import DecimalString DecimalPos DecimalZ.
From Stdlib.Strings Require Import Byte.
From stdpp Require Import gmap strings list.

Local Set Warnings "-register-all".
Local Open Scope Z_scope.

(** ** Numbers

    A coordinate is the real value of a Python [int] or of a finite
    float; both are rationals, and [min], [max] and [int] are exact on
    them.  Non-finite floats are outside the model. *)

Module Py.

(** Python's [min(a, b)]: the first argument unless the second is
    strictly smaller. *)
Definition min (a b : Q) : Q := if Qlt_le_dec b a then b else a.

(** Python's [max(a, b)]: the first argument unless the second is
    strictly greater. *)
Definition max (a b : Q) : Q := if Qlt_le_dec a b then b else a.

(** Python's [int(x)] on a real number: the fractional part is
    dropped, so the result is rounded toward zero. *)
Definition int (x : Q) : Z := Z.quot (Qnum x) (Zpos (Qden x)).

End Py.

(** ** Detections *)

Record Point := { px : Q; py : Q }.

(** [item[0]]: four corner points, indexed 0..3. *)
Record Quad := { p0 : Point; p1 : Point; p2 : Point; p3 : Point }.

(** One element of [ocr.readtext]'s result: [item[0]] is the
    quadrilateral, [item[1]] the text, [item[2]] the confidence. *)
Record Detection := { quad : Quad; text : string; confidence : Q }.

Record BBox := { x0 : Z; y0 : Z; x1 : Z; y1 : Z }.

(** The ['bbox'] entry of [process_ocr], lines 82-85. *)
Definition bbox (q : Quad) : BBox :=
  {| x0 := Py.int (Py.min (px (p0 q)) (px (p3 q)));
     y0 := Py.int (Py.min (py (p0 q)) (py (p1 q)));
     x1 := Py.int (Py.max (px (p1 q)) (px (p2 q)));
     y1 := Py.int (Py.max (py (p2 q)) (py (p3 q))) |}.

(** ** Python values, exceptions and strings *)

Local Open Scope string_scope.

(** A raised exception: its class name and [str(error)]. *)
Record exn := { exn_type : string; exn_str : string }.

Inductive result (A : Type) : Type :=
| Ok (a : A)
| Raise (e : exn).
Arguments Ok {A} a.
Arguments Raise {A} e.

Definition result_bind {A B} (r : result A) (k : A -> result B) : result B :=
  match r with
  | Ok a => k a
  | Raise e => Raise e
  end.

(** Left-to-right traversal that stops at the first exception. *)
Definition traverse {A B} (f : A -> result B) : list A -> result (list B) :=
  fix go l :=
    match l with
    | [] => Ok []
    | x :: l' =>
        match f x with
        | Raise e => Raise e
        | Ok y => match go l' with
                  | Raise e => Raise e
                  | Ok ys => Ok (y :: ys)
                  end
        end
    end.

(** Items of a numpy array of integer, floating-point or boolean
    dtype. *)
Inductive npscalar :=
| NpInt (z : Z)
| NpFloat (x : Q)
| NpBool (b : bool).

(** A numpy array of such a dtype by nesting depth: [NdAxis] adds one
    axis, [NdItem] is the depth-zero case. *)
Inductive ndarray :=
| NdItem (x : npscalar)
| NdAxis (items : list ndarray).

(** A numpy array of complex or object dtype whose items are objects
    of a class the JSON encoder does not know ([complex], [Decimal],
    ...); an item is given by the name of its class. *)
Inductive objarray :=
| ObjItem (cls : string)
| ObjAxis (items : list objarray).

(** The objects the JSON encoder may be handed. *)
Inductive pyval :=
| PyNone
| PyBool (b : bool)
| PyInt (z : Z)
| PyFloat (x : Q)
| PyStr (s : string)
| PyList (items : list pyval)
| PyDict (entries : list (string * pyval))
| NpInteger (z : Z)          (* an instance of np.integer, of value z *)
| NpFloating (x : Q)         (* an instance of np.floating, of value x *)
| NpNdarray (a : ndarray)    (* an instance of np.ndarray *)
| NpObjectArray (a : objarray) (* an np.ndarray of complex or object dtype *)
| PyObject (cls : string).   (* an instance of any other class *)

(** [obj.__class__.__name__], used by the encoder's error message. *)
Definition class_name (obj : pyval) : string :=
  match obj with
  | PyNone => "NoneType"
  | PyBool _ => "bool"
  | PyInt _ => "int"
  | PyFloat _ => "float"
  | PyStr _ => "str"
  | PyList _ => "list"
  | PyDict _ => "dict"
  | NpInteger _ => "int64"
  | NpFloating _ => "float32"
  | NpNdarray _ => "ndarray"
  | NpObjectArray _ => "ndarray"
  | PyObject cls => cls
  end.

Module Str.

(** [sep.join(parts)]. *)
Fixpoint join (sep : string) (parts : list string) : string :=
  match parts with
  | [] => EmptyString
  | [s] => s
  | s :: rest => s +:+ sep +:+ join sep rest
  end.

(** [s.split(sep)] for a one-character separator: every occurrence
    splits, empty segments are kept. *)
Fixpoint split (sep : ascii) (s : string) : list string :=
  match s with
  | EmptyString => [EmptyString]
  | String c s' =>
      if Ascii.eqb c sep then EmptyString :: split sep s'
      else match split sep s' with
           | [] => [String c EmptyString]
           | seg :: segs => String c seg :: segs
           end
  end.

(** [str(n)] for an integer. *)
Definition of_int (n : Z) : string := NilZero.string_of_int (Z.to_int n).

Definition startswith_slash (s : string) : bool :=
  match s with
  | String c _ => Ascii.eqb c "/"
  | EmptyString => false
  end.

Fixpoint endswith_slash (s : string) : bool :=
  match s with
  | EmptyString => false
  | String c EmptyString => Ascii.eqb c "/"
  | String _ s' => endswith_slash s'
  end.

End Str.

(** [os.path.join(a, b)] on a POSIX system. *)
Definition path_join (a b : string) : string :=
  if Str.startswith_slash b then b
  else if String.eqb a EmptyString || Str.endswith_slash a then a +:+ b
  else a +:+ "/" +:+ b.

(** ** The numeric normalizer *)

(** [ndarray.tolist()]: the array as nested Python lists, one level
    per axis, of Python scalars. *)
Definition item (x : npscalar) : pyval :=
  match x with
  | NpInt z => PyInt z
  | NpFloat x => PyFloat x
  | NpBool b => PyBool b
  end.

Fixpoint tolist (a : ndarray) : pyval :=
  match a with
  | NdItem x => item x
  | NdAxis items => PyList (map tolist items)
  end.

(** [tolist()] on an array of complex or object dtype: the same
    nesting, the items left as the objects they are. *)
Fixpoint objects_tolist (a : objarray) : pyval :=
  match a with
  | ObjItem cls => PyObject cls
  | ObjAxis items => PyList (map objects_tolist items)
  end.

(** [json.JSONEncoder.default]: the base class has no fallback. *)
Definition super_default (obj : pyval) : result pyval :=
  Raise {| exn_type := "TypeError";
           exn_str := "Object of type " +:+ class_name obj
                      +:+ " is not JSON serializable" |}.

Module NumpyEncoder.

(** [NumpyEncoder.default], lines 15-22. *)
Definition default (obj : pyval) : result pyval :=
  match obj with
  | NpInteger z => Ok (PyInt z)
  | NpFloating x => Ok (PyFloat x)
  | NpNdarray a => Ok (tolist a)
  | NpObjectArray a => Ok (objects_tolist a)
  | _ => super_default obj
  end.

End NumpyEncoder.

(** ** JSON documents and the encoder that drives the hook *)

Inductive json :=
| JNull
| JBool (b : bool)
| JInt (z : Z)
| JFloat (x : Q)
| JStr (s : string)
| JArr (items : list json)
| JObj (members : list (string * json)).

(** One pass of the encoder over built-in types; any other object is
    handed to [hook]. *)
Fixpoint iterencode (hook : pyval -> result json) (o : pyval) : result json :=
  match o with
  | PyStr s => Ok (JStr s)
  | PyNone => Ok JNull
  | PyBool b => Ok (JBool b)
  | PyInt z => Ok (JInt z)
  | PyFloat x => Ok (JFloat x)
  | PyList items =>
      result_bind (traverse (iterencode hook) items) (fun js => Ok (JArr js))
  | PyDict entries =>
      result_bind
        (traverse (fun kv => result_bind (iterencode hook (snd kv))
                               (fun j => Ok (fst kv, j))) entries)
        (fun ms => Ok (JObj ms))
  | _ => hook o
  end.

(** For an object it does not know the encoder calls [default] and
    encodes what comes back, again with the hook; [depth] bounds the
    chain of such calls.  The nesting of lists and dictionaries is not
    bounded here: the interpreter's recursion limit, which deeply
    nested values run into, is outside this model. *)
Fixpoint encode (depth : nat) : pyval -> result json :=
  match depth with
  | O => iterencode (fun _ =>
           Raise {| exn_type := "RecursionError";
                    exn_str := "maximum recursion depth exceeded" |})
  | S d => iterencode (fun o => result_bind (NumpyEncoder.default o) (encode d))
  end.

(** [json.dumps(obj, cls=NumpyEncoder)], as a document. *)
Definition dumps (obj : pyval) : result json := encode 1000 obj.

(** ** Response assembly *)

(** The [formatted_result] dictionary of [process_ocr], lines 76-89. *)
Definition format_word (item : Detection) : pyval :=
  PyDict [("text", PyStr (text item));
          ("bbox", PyDict [("x0", PyInt (x0 (bbox (quad item))));
                           ("y0", PyInt (y0 (bbox (quad item))));
                           ("x1", PyInt (x1 (bbox (quad item))));
                           ("y1", PyInt (y1 (bbox (quad item))))])].

Definition format_result (result : list Detection) : pyval :=
  PyDict [("text", PyStr (Str.join " " (map text result)));
          ("words", PyList (map format_word result))].

(** [d[key]] on encoder input, for reading results. *)
Definition dict_get (key : string) (d : pyval) : option pyval :=
  match d with
  | PyDict entries => snd <$> List.find (fun kv => String.eqb (fst kv) key) entries
  | _ => None
  end.

(** ** The process: engine singleton, file system, requests *)

Abbreviation FileSystem := (gmap string (list byte)).

(** The OCR engine as an injected capability: [readtext] is given the
    path argument and sees the files on disk. *)
Record Engine := {
  readtext : option string -> FileSystem -> result (list Detection)
}.

(** Module globals [ocr] and [is_initialized], the files on disk, and
    a record of the [readtext] calls made so far (instrumentation, not
    program state). *)
Record World := {
  ocr : option Engine;
  is_initialized : bool;
  disk : FileSystem;
  readtext_calls : list (option string)
}.

(** An uploaded file part: its client-side name and its bytes. *)
Record FileStorage := { filename : string; stream : list byte }.

Record Request := {
  files : gmap string FileStorage;
  form : gmap string string
}.

Record Response := { status : Z; body : json; content_type : string }.

(** What a view function ends with: a response, or an exception that
    leaves it uncaught. *)
Inductive Outcome :=
| Returned (r : Response)
| Uncaught (e : exn).

(** Computations over the world that may raise. *)
Definition M (A : Type) : Type := World -> World * result A.

Definition ret {A} (a : A) : M A := fun w => (w, Ok a).
Definition raise {A} (e : exn) : M A := fun w => (w, Raise e).
Definition bind {A B} (m : M A) (k : A -> M B) : M B :=
  fun w => match m w with
           | (w', Ok a) => k a w'
           | (w', Raise e) => (w', Raise e)
           end.
Definition lift {A} (r : result A) : M A := fun w => (w, r).

Notation "'let*' x := m 'in' k" := (bind m (fun x => k))
  (at level 10, x name, m at level 100, k at level 200, only parsing).

(** [file.save(path)] and [open(path, 'wb')] with [f.write(data)], on
    a writable temporary directory and a path that names a regular
    file; the failures of the file system itself are outside the
    model. *)
Definition write_file (path : string) (data : list byte) : M unit :=
  fun w => ({| ocr := ocr w; is_initialized := is_initialized w;
               disk := <[path := data]> (disk w);
               readtext_calls := readtext_calls w |}, Ok tt).

Definition path_exists (path : string) (w : World) : bool :=
  bool_decide (is_Some (disk w !! path)).

Definition os_remove (path : string) : M unit :=
  fun w => ({| ocr := ocr w; is_initialized := is_initialized w;
               disk := delete path (disk w);
               readtext_calls := readtext_calls w |}, Ok tt).

(** [jsonify({...})] with a status code. *)
Definition jsonify (members : list (string * json)) (code : Z) : Response :=
  {| status := code; body := JObj members; content_type := "application/json" |}.

Definition missing_image_message : string :=
  "No image provided. Send a file with field name " +:+ String "034" "image"
  +:+ String "034" " or a base64 encoded image in the request body.".

(** The libraries the server calls: [easyocr.Reader(lang_list)],
    [werkzeug.utils.secure_filename], [tempfile.gettempdir()] and
    [base64.b64decode]. *)
Record Platform := {
  Reader : list string -> result Engine;
  secure_filename : string -> string;
  gettempdir : string;
  b64decode : string -> result (list byte)
}.

(** [request.form['image'].split(',')[1]], line 66. *)
Definition base64_payload (field : string) : M string :=
  match Str.split "," field !! 1%nat with
  | Some part => ret part
  | None => raise {| exn_type := "IndexError";
                     exn_str := "list index out of range" |}
  end.

Section Server.

Context (lib : Platform).

(** [initialize_ocr], lines 32-37. *)
Definition initialize_ocr : M unit := fun w =>
  match ocr w with
  | None =>
      match Reader lib ["en"] with
      | Raise e => (w, Raise e)
      | Ok reader =>
          ({| ocr := Some reader; is_initialized := true;
              disk := disk w; readtext_calls := readtext_calls w |}, Ok tt)
      end
  | Some _ => (w, Ok tt)
  end.

(** Module import, lines 29-40: both globals start unset, then
    [initialize_ocr()] runs. *)
Definition startup (fs : FileSystem) : World * result unit :=
  initialize_ocr {| ocr := None; is_initialized := false;
                    disk := fs; readtext_calls := [] |}.

(** [health_check], lines 43-44. *)
Definition health_check (w : World) : World * Outcome :=
  (w, Returned (jsonify [("status", JStr "ok");
                         ("ocrInitialized", JBool (is_initialized w))] 200)).

(** Lines 57-70: materialise the image, giving [image_path]. *)
Definition save_image (request : Request) (now : Q) : M (option string) :=
  match files request !! "image" with
  | Some file =>
      let image_path := path_join (gettempdir lib) (secure_filename lib (filename file)) in
      let* _ := write_file image_path (stream file) in
      ret (Some image_path)
  | None =>
      match form request !! "image" with
      | Some field =>
          let* base64_data := base64_payload field in
          let* image_data := lift (b64decode lib base64_data) in
          let image_path :=
            path_join (gettempdir lib)
              ("image-" +:+ Str.of_int (Py.int now) +:+ ".png") in
          let* _ := write_file image_path image_data in
          ret (Some image_path)
      | None => ret None
      end
  end.

(** Line 73: [ocr.readtext(image_path)]. *)
Definition call_readtext (image_path : option string) : M (list Detection) :=
  fun w =>
    match ocr w with
    | None =>
        (w, Raise {| exn_type := "AttributeError";
                     exn_str := "'NoneType' object has no attribute 'readtext'" |})
    | Some reader =>
        ({| ocr := ocr w; is_initialized := is_initialized w; disk := disk w;
            readtext_calls := readtext_calls w ++ [image_path] |},
         readtext reader image_path (disk w))
    end.

(** Lines 92-93: [if image_path and os.path.exists(image_path)]. *)
Definition remove_image (image_path : option string) : M unit :=
  fun w =>
    match image_path with
    | Some path =>
        if negb (String.eqb path EmptyString) && path_exists path w
        then os_remove path w
        else (w, Ok tt)
    | None => (w, Ok tt)
    end.

(** The body of the [try], lines 57-95. *)
Definition try_block (request : Request) (now : Q) : M Response :=
  let* image_path := save_image request now in
  let* result := call_readtext image_path in
  let formatted_result := format_result result in
  let* _ := remove_image image_path in
  let* document := lift (dumps formatted_result) in
  ret {| status := 200; body := document; content_type := "application/json" |}.

(** [process_ocr], lines 47-99; [now] is the reading of [time.time()]. *)
Definition process_ocr (request : Request) (now : Q) (w : World)
  : World * Outcome :=
  match (if negb (is_initialized w) then initialize_ocr w else (w, Ok tt)) with
  | (w0, Raise e) => (w0, Uncaught e)
  | (w0, Ok _) =>
      if negb (bool_decide (is_Some (files request !! "image")))
         && negb (bool_decide (is_Some (form request !! "image")))
      then (w0, Returned (jsonify [("error", JStr missing_image_message)] 400))
      else
        match try_block request now w0 with
        | (w1, Ok response) => (w1, Returned response)
        | (w1, Raise error) =>
            (w1, Returned (jsonify
                   [("error", JStr ("Failed to process image: " +:+ exn_str error))]
                   500))
        end
  end.

(** The operations that touch the globals. *)
Inductive Operation :=
| Initialize
| Health
| Ocr (request : Request) (now : Q).

Definition run (op : Operation) (w : World) : World :=
  match op with
  | Initialize => fst (initialize_ocr w)
  | Health => fst (health_check w)
  | Ocr request now => fst (process_ocr request now w)
  end.

(** The worlds a running server can be in: module import succeeded,
    then any number of operations ran. *)
Inductive reachable : World -> Prop :=
| reachable_startup fs w : startup fs = (w, Ok tt) -> reachable w
| reachable_run op w : reachable w -> reachable (run op w).

End Server.

(** ** Vocabulary of the statements *)

(** Rounding toward zero, said with floor and ceiling. *)
Definition toward_zero (x : Q) : Z :=
  if Qle_bool 0 x then Qfloor x else Qceiling x.

(** The corner convention: [p0], [p3] on the left of [p1], [p2], and
    [p0], [p1] above [p2], [p3]. *)
Definition corner_convention (q : Quad) : Prop :=
  (px (p0 q) <= px (p1 q) /\ px (p0 q) <= px (p2 q) /\
   px (p3 q) <= px (p1 q) /\ px (p3 q) <= px (p2 q) /\
   py (p0 q) <= py (p2 q) /\ py (p0 q) <= py (p3 q) /\
   py (p1 q) <= py (p2 q) /\ py (p1 q) <= py (p3 q))%Q.

Fixpoint has_char (c : ascii) (s : string) : bool :=
  match s with
  | EmptyString => false
  | String c' s' => Ascii.eqb c' c || has_char c s'
  end.

(** Everything after the first occurrence of [c], if there is one. *)
Fixpoint after_first (c : ascii) (s : string) : option string :=
  match s with
  | EmptyString => None
  | String c' s' => if Ascii.eqb c' c then Some s' else after_first c s'
  end.

(** [tail] is empty or starts with [c]: the segment before it ends there. *)
Definition ends_segment (c : ascii) (tail : string) : bool :=
  match tail with
  | EmptyString => true
  | String c' _ => Ascii.eqb c' c
  end.

(** [needle] occurs somewhere in [s]. *)
Fixpoint mentions (needle s : string) : bool :=
  String.prefix needle s ||
  match s with
  | EmptyString => false
  | String _ s' => mentions needle s'
  end.

(** A computation that leaves the globals [ocr] and [is_initialized]
    as they were. *)
Definition keeps_globals {A} (m : M A) : Prop :=
  forall w, ocr (fst (m w)) = ocr w /\
            is_initialized (fst (m w)) = is_initialized w.

(** A detection without its confidence. *)
Definition region (d : Detection) : Quad * string := (quad d, text d).

(** Two engine answers that differ in confidence values at most. *)
Definition same_regions (r1 r2 : result (list Detection)) : Prop :=
  match r1, r2 with
  | Ok ds1, Ok ds2 => map region ds1 = map region ds2
  | Raise e1, Raise e2 => e1 = e2
  | _, _ => False
  end.

(** Values made of standard Python types only. *)
Fixpoint plain (v : pyval) : bool :=
  match v with
  | PyNone | PyBool _ | PyInt _ | PyFloat _ | PyStr _ => true
  | PyList items => forallb plain items
  | PyDict entries => forallb (fun kv => plain (snd kv)) entries
  | NpInteger _ | NpFloating _ | NpNdarray _ | NpObjectArray _
  | PyObject _ => false
  end.

(** The types [NumpyEncoder.default] has a branch for. *)
Definition recognized (obj : pyval) : bool :=
  match obj with
  | NpInteger _ | NpFloating _ | NpNdarray _ | NpObjectArray _ => true
  | _ => false
  end.



(** The JSON document of one word and of a whole result. *)
Definition word_document (d : Detection) : json :=
  JObj [("text", JStr (text d));
        ("bbox", JObj [("x0", JInt (x0 (bbox (quad d))));
                       ("y0", JInt (y0 (bbox (quad d))));
                       ("x1", JInt (x1 (bbox (quad d))));
                       ("y1", JInt (y1 (bbox (quad d))))])].

Definition result_document (ds : list Detection) : json :=
  JObj [("text", JStr (Str.join " " (map text ds)));
        ("words", JArr (map word_document ds))].

(** ** A small platform to run the server on *)

Module Fixture.

Definition engine_returning (ds : list Detection) : Engine :=
  {| readtext := fun _ _ => Ok ds |}.

Definition engine_raising (message : string) : Engine :=
  {| readtext := fun _ _ =>
       Raise {| exn_type := "RuntimeError"; exn_str := message |} |}.

(** The two bytes of [hi], whose base64 form is [aGk=]. *)
Definition hi : list byte := [x68; x69]%byte.

(** A decoder that knows one payload and rejects the rest. *)
Definition decode_hi (s : string) : result (list byte) :=
  if String.eqb s "aGk=" then Ok hi
  else Raise {| exn_type := "binascii.Error"; exn_str := "Incorrect padding" |}.

Definition platform (e : Engine) : Platform :=
  {| Reader := fun _ => Ok e;
     secure_filename := fun name => name;
     gettempdir := "/tmp";
     b64decode := decode_hi |}.

Definition upload : Request :=
  {| files := {[ "image" := {| filename := "scan.png"; stream := hi |} ]};
     form := ∅ |}.

Definition data_uri (field : string) : Request :=
  {| files := ∅; form := {[ "image" := field ]} |}.

Definition no_image : Request :=
  {| files := ∅; form := {[ "name" := "scan" ]} |}.

Definition started (e : Engine) : World :=
  {| ocr := Some e; is_initialized := true; disk := ∅; readtext_calls := [] |}.

Definition pt (x y : Q) : Point := {| px := x; py := y |}.

Definition box : Quad :=
  {| p0 := pt 10 20; p1 := pt (61 # 2) 20; p2 := pt (61 # 2) (83 # 2);
     p3 := pt 10 (83 # 2) |}.

Definition word (s : string) (c : Q) : Detection :=
  {| quad := box; text := s; confidence := c |}.

(** A quadrilateral reaching left of the origin by half a pixel. *)
Definition off_image : Quad :=
  {| p0 := pt (-1 # 2) 0; p1 := pt 8 0; p2 := pt 8 4; p3 := pt 0 4 |}.

End Fixture.

(** ** The greeting function *)

(** What [request.get_json(silent=True)] gives is a parsed JSON
    document, or [None] when there is no parsable body; [request.args]
    is the query string as (key, value) pairs in order. *)
Record HttpRequest := {
  get_json : option json;
  args : list (string * string)
}.

(** [bool(v)] for a parsed JSON value. *)
Definition truthy (v : json) : bool :=
  match v with
  | JNull => false
  | JBool b => b
  | JInt z => negb (Z.eqb z 0)
  | JFloat x => negb (Qeq_bool x 0)
  | JStr s => negb (String.eqb s EmptyString)
  | JArr items => match items with [] => false | _ => true end
  | JObj members => match members with [] => false | _ => true end
  end.

Definition is_str (s : string) (v : json) : bool :=
  match v with
  | JStr s' => String.eqb s' s
  | _ => false
  end.

Definition has_key {A} (key : string) (pairs : list (string * A)) : bool :=
  existsb (fun kv => String.eqb (fst kv) key) pairs.

Definition not_iterable (cls : string) : exn :=
  {| exn_type := "TypeError";
     exn_str := "argument of type '" +:+ cls +:+ "' is not iterable" |}.

(** [key in v]: a key of an object, an element of an array, a
    substring of a string; numbers and booleans are not containers. *)
Definition contains (key : string) (v : json) : result bool :=
  match v with
  | JObj members => Ok (has_key key members)
  | JArr items => Ok (existsb (is_str key) items)
  | JStr s => Ok (mentions key s)
  | JInt _ => Raise (not_iterable "int")
  | JFloat _ => Raise (not_iterable "float")
  | JBool _ => Raise (not_iterable "bool")
  | JNull => Raise (not_iterable "NoneType")
  end.

(** The value bound to [key]; of duplicate members a parsed object
    keeps the last. *)
Definition lookup_last {A} (key : string) (pairs : list (string * A)) : option A :=
  snd <$> List.find (fun kv => String.eqb (fst kv) key) (rev pairs).

(** [v[key]] with a string key. *)
Definition getitem (key : string) (v : json) : result json :=
  match v with
  | JObj members =>
      match lookup_last key members with
      | Some x => Ok x
      | None => Raise {| exn_type := "KeyError"; exn_str := "'" +:+ key +:+ "'" |}
      end
  | JArr _ =>
      Raise {| exn_type := "TypeError";
               exn_str := "list indices must be integers or slices, not str" |}
  | JStr _ =>
      Raise {| exn_type := "TypeError";
               exn_str := "string indices must be integers, not 'str'" |}
  | JInt _ =>
      Raise {| exn_type := "TypeError"; exn_str := "'int' object is not subscriptable" |}
  | JFloat _ =>
      Raise {| exn_type := "TypeError"; exn_str := "'float' object is not subscriptable" |}
  | JBool _ =>
      Raise {| exn_type := "TypeError"; exn_str := "'bool' object is not subscriptable" |}
  | JNull =>
      Raise {| exn_type := "TypeError";
               exn_str := "'NoneType' object is not subscriptable" |}
  end.

(** [request.args[key]]: the first value given for the key. *)
Definition first_value (key : string) (pairs : list (string * string)) : option string :=
  snd <$> List.find (fun kv => String.eqb (fst kv) key) pairs.

Section Greeting.

(** [str(v)] for a value that is not a string. *)
Context (py_str : json -> string).

(** What [{}] is replaced by in ['Hello {}!'.format(name)]. *)
Definition format_field (name : json) : string :=
  match name with
  | JStr s => s
  | _ => py_str name
  end.

(** [hello_http], lines 102-121. *)
Definition hello_http (request : HttpRequest) : result string :=
  let request_json := get_json request in
  let request_args := args request in
  result_bind
    (match request_json with
     | Some v =>
         if truthy v then
           result_bind (contains "name" v) (fun found =>
             if found then result_bind (getitem "name" v) (fun x => Ok (Some x))
             else Ok None)
         else Ok None
     | None => Ok None
     end)
    (fun from_json =>
       result_bind
         (match from_json with
          | Some x => Ok x
          | None =>
              match request_args with
              | [] => Ok (JStr "World")
              | _ =>
                  if has_key "name" request_args then
                    match first_value "name" request_args with
                    | Some value => Ok (JStr value)
                    | None => Raise {| exn_type := "BadRequestKeyError";
                                       exn_str := "name" |}
                    end
                  else Ok (JStr "World")
              end
          end)
         (fun name => Ok ("Hello " +:+ format_field name +:+ "!"))).

End Greeting.

(** ** More vocabulary *)

(** The one path a request may write to and remove. *)
Definition image_path_of (lib : Platform) (request : Request) (now : Q) : string :=
  match files request !! "image" with
  | Some file => path_join (gettempdir lib) (secure_filename lib (filename file))
  | None =>
      path_join (gettempdir lib) ("image-" +:+ Str.of_int (Py.int now) +:+ ".png")
  end.

(** The array has an item somewhere. *)
Fixpoint has_item (a : objarray) : bool :=
  match a with
  | ObjItem _ => true
  | ObjAxis items => existsb has_item items
  end.

(** Values with no object of an unknown class anywhere inside. *)
Fixpoint serializable (v : pyval) : bool :=
  match v with
  | PyList items => forallb serializable items
  | PyDict entries => forallb (fun kv => serializable (snd kv)) entries
  | NpObjectArray a => negb (has_item a)
  | PyObject _ => false
  | _ => true
  end.

(** A JSON body that makes the greeting function raise: a number or a
    boolean that is not zero or false, or a string or an array in
    which [name] is found. *)
Definition breaks_greeting (v : json) : bool :=
  truthy v &&
  match v with
  | JInt _ | JFloat _ | JBool _ => true
  | JStr s => mentions "name" s
  | JArr items => existsb (is_str "name") items
  | JObj _ | JNull => false
  end.

(** The pixel-aligned rectangle of a box, right and bottom pixel
    included, contains the point. *)
Definition covers (b : BBox) (c : Point) : Prop :=
  (inject_Z (x0 b) <= px c /\ px c < inject_Z (x1 b + 1) /\
   inject_Z (y0 b) <= py c /\ py c < inject_Z (y1 b + 1))%Q.

(** A quadrilateral with integer corners. *)
Definition int_point (x y : Z) : Point := {| px := inject_Z x; py := inject_Z y |}.

Module Samples.

Definition words : list Detection :=
  [Fixture.word "AK-74" (99 # 100); Fixture.word "Salewa" (1 # 2)].

Definition both_parts : Request :=
  {| files := {[ "image" := {| filename := "scan.png"; stream := Fixture.hi |} ]};
     form := {[ "image" := "data:image/png;base64,aGk=" ]} |}.

(** An engine that reports the same regions with other confidences. *)
Definition engine_a : Engine := Fixture.engine_returning words.
Definition engine_b : Engine :=
  Fixture.engine_returning
    [Fixture.word "AK-74" (1 # 10); Fixture.word "Salewa" 0].

(** [str] for the one non-string value used below. *)
Definition str_of (v : json) : string :=
  match v with
  | JInt z => Str.of_int z
  | _ => "?"
  end.

End Samples.

(** * Properties *)

(** ** Numbers and bounding boxes *)

Section Numbers.

Local Open Scope Q_scope.

Lemma int_toward_zero x : Py.int x = toward_zero x.
Proof.
  destruct x as [n d]. unfold Py.int, toward_zero, Qle_bool, Qceiling, Qfloor.
  cbn [Qnum Qden Qopp]. rewrite Z.mul_1_r, Z.mul_0_l.
  destruct (Z.leb_spec 0 n) as [Hn | Hn].
  - apply Z.quot_div_nonneg; lia.
  - rewrite <- (Z.opp_involutive n) at 1. rewrite Z.quot_opp_l by lia.
    f_equal. apply Z.quot_div_nonneg; lia.
Qed.

Lemma toward_zero_nonneg x : 0 <= x -> (0 <= toward_zero x)%Z.
Proof.
  intros Hx. unfold toward_zero.
  apply Qle_bool_iff in Hx as Hb. rewrite Hb.
  change 0%Z with (Qfloor 0). now apply Qfloor_resp_le.
Qed.

Lemma toward_zero_neg x : x < 0 -> (toward_zero x <= 0)%Z.
Proof.
  intros Hx. unfold toward_zero.
  destruct (Qle_bool 0 x) eqn:Hb.
  - apply Qle_bool_iff in Hb. exfalso. apply (Qlt_irrefl x).
    eapply Qlt_le_trans; eassumption.
  - change 0%Z with (Qceiling 0). apply Qceiling_resp_le. now apply Qlt_le_weak.
Qed.

Lemma toward_zero_monotone x y : x <= y -> (toward_zero x <= toward_zero y)%Z.
Proof.
  intros Hxy.
  destruct (Qlt_le_dec x 0) as [Hx | Hx]; destruct (Qlt_le_dec y 0) as [Hy | Hy].
  - unfold toward_zero.
    destruct (Qle_bool 0 x) eqn:Hbx.
    { apply Qle_bool_iff in Hbx. exfalso. apply (Qlt_irrefl x).
      eapply Qlt_le_trans; eassumption. }
    destruct (Qle_bool 0 y) eqn:Hby.
    { apply Qle_bool_iff in Hby. exfalso. apply (Qlt_irrefl y).
      eapply Qlt_le_trans; eassumption. }
    now apply Qceiling_resp_le.
  - etransitivity; [now apply toward_zero_neg | now apply toward_zero_nonneg].
  - exfalso. apply (Qlt_irrefl y).
    eapply Qlt_le_trans; [eassumption |]. eapply Qle_trans; eassumption.
  - unfold toward_zero.
    apply Qle_bool_iff in Hx as ->. apply Qle_bool_iff in Hy as ->.
    now apply Qfloor_resp_le.
Qed.

Lemma int_monotone x y : x <= y -> (Py.int x <= Py.int y)%Z.
Proof. rewrite !int_toward_zero. apply toward_zero_monotone. Qed.

Lemma min_is_Qmin a b : Py.min a b = Qmin a b.
Proof.
  unfold Py.min, Qmin, GenericMinMax.gmin.
  destruct (Qlt_le_dec b a) as [H | H], (Qcompare_spec a b) as [E | E | E];
    try reflexivity; exfalso.
  - rewrite E in H. exact (Qlt_irrefl _ H).
  - exact (Qlt_irrefl _ (Qlt_trans _ _ _ H E)).
  - exact (Qlt_irrefl _ (Qlt_le_trans _ _ _ E H)).
Qed.

Lemma max_is_Qmax a b : Py.max a b = Qmax a b.
Proof.
  unfold Py.max, Qmax, GenericMinMax.gmax.
  destruct (Qlt_le_dec a b) as [H | H], (Qcompare_spec a b) as [E | E | E];
    try reflexivity; exfalso.
  - rewrite E in H. exact (Qlt_irrefl _ H).
  - exact (Qlt_irrefl _ (Qlt_trans _ _ _ H E)).
  - exact (Qlt_irrefl _ (Qlt_le_trans _ _ _ E H)).
Qed.

Lemma min_le_l a b : Py.min a b <= a.
Proof. rewrite min_is_Qmin. apply Q.le_min_l. Qed.

Lemma max_ge_l a b : a <= Py.max a b.
Proof. rewrite max_is_Qmax. apply Q.le_max_l. Qed.

Lemma max_ge_r a b : b <= Py.max a b.
Proof. rewrite max_is_Qmax. apply Q.le_max_r. Qed.

End Numbers.

Section BoundingBox.

Local Open Scope Q_scope.

(** C2, as amended.  Each coordinate of the box is the selected
    minimum or maximum rounded toward zero: its floor when that value
    is non-negative, its ceiling when it is negative.  The corners
    selected are [p0],[p3] for [x0], [p0],[p1] for [y0], [p1],[p2] for
    [x1] and [p2],[p3] for [y1]. *)
Theorem bbox_rounds_toward_zero (q : Quad) :
  x0 (bbox q) = toward_zero (Qmin (px (p0 q)) (px (p3 q))) /\
  y0 (bbox q) = toward_zero (Qmin (py (p0 q)) (py (p1 q))) /\
  x1 (bbox q) = toward_zero (Qmax (px (p1 q)) (px (p2 q))) /\
  y1 (bbox q) = toward_zero (Qmax (py (p2 q)) (py (p3 q))).
Proof.
  unfold bbox; cbn [x0 y0 x1 y1].
  rewrite !int_toward_zero, !min_is_Qmin, !max_is_Qmax. auto.
Qed.

(** C2 as stated fails: with a left corner half a pixel left of the
    origin, [x0] is 0 while the floor of the selected minimum is -1. *)
Lemma bbox_is_not_floor_left_of_origin :
  let q := Fixture.off_image in
  x0 (bbox q) = 0%Z /\
  Qfloor (Qmin (px (p0 q)) (px (p3 q))) = (-1)%Z /\
  x0 (bbox q) <> Qfloor (Qmin (px (p0 q)) (px (p3 q))).
Proof. cbv zeta. repeat split. vm_compute. discriminate. Qed.

(** Where the selected value is not negative the coordinate is its
    floor, as for every corner inside the image. *)
Lemma int_floor_nonneg x : 0 <= x -> Py.int x = Qfloor x.
Proof.
  intros Hx. rewrite int_toward_zero. unfold toward_zero.
  now apply Qle_bool_iff in Hx as ->.
Qed.

(** C6.  Under the corner convention the box is well formed:
    [x0 <= x1] and [y0 <= y1]. *)
Theorem bbox_ordered (q : Quad) :
  corner_convention q ->
  (x0 (bbox q) <= x1 (bbox q))%Z /\ (y0 (bbox q) <= y1 (bbox q))%Z.
Proof.
  intros (Hx & _ & _ & _ & Hy & _).
  unfold bbox; cbn [x0 y0 x1 y1]. split; apply int_monotone.
  - eapply Qle_trans; [apply min_le_l |].
    eapply Qle_trans; [exact Hx | apply max_ge_l].
  - eapply Qle_trans; [apply min_le_l |].
    eapply Qle_trans; [exact Hy | apply max_ge_l].
Qed.

Lemma bbox_ordered_witness :
  corner_convention Fixture.box /\
  (x0 (bbox Fixture.box) <= x1 (bbox Fixture.box))%Z /\
  (y0 (bbox Fixture.box) <= y1 (bbox Fixture.box))%Z.
Proof.
  assert (H : corner_convention Fixture.box).
  { unfold corner_convention, Qle; cbn. lia. }
  split; [exact H | exact (bbox_ordered Fixture.box H)].
Defined.

End BoundingBox.

(** ** The numeric normalizer and the encoder *)

Section Normalizer.

(** Induction on arrays that reaches the items of every axis. *)
Lemma ndarray_nested_ind (P : ndarray -> Prop) :
  (forall x, P (NdItem x)) ->
  (forall items, Forall P items -> P (NdAxis items)) ->
  forall a, P a.
Proof.
  intros Hitem Haxis. fix IH 1. intros [x | items].
  - apply Hitem.
  - apply Haxis. induction items as [| a items IHitems]; constructor.
    + apply IH.
    + exact IHitems.
Qed.

Lemma tolist_plain a : plain (tolist a) = true.
Proof.
  induction a as [[z | x | b] | items IH] using ndarray_nested_ind;
    try reflexivity.
  cbn [tolist plain]. induction IH as [| a items Ha _ IHitems]; [reflexivity |].
  cbn [map forallb]. now rewrite Ha, IHitems.
Qed.

Lemma super_default_raises obj :
  exists e, super_default obj = Raise e /\ exn_type e = "TypeError".
Proof. eexists. split; reflexivity. Qed.

(** C7, as amended.  [NumpyEncoder.default] turns a numpy integer
    into the Python integer of the same value and a numpy float into
    the Python float of the same value.  An array it turns into what
    [tolist] gives: with at least one axis a list with one entry per
    item along that axis, each converted the same way; with no axis
    the bare item and no list.  Integer, float and boolean items
    become the Python integer, float and boolean of the same value, so
    that such an array comes out made of standard types only; items of
    other dtypes stay the objects they are.  For an object of any
    other type it is the base class's [default], which raises
    [TypeError]. *)
Theorem default_normalizes :
  (forall z, NumpyEncoder.default (NpInteger z) = Ok (PyInt z)) /\
  (forall x, NumpyEncoder.default (NpFloating x) = Ok (PyFloat x)) /\
  (forall items, NumpyEncoder.default (NpNdarray (NdAxis items))
                 = Ok (PyList (map tolist items))) /\
  (forall z, NumpyEncoder.default (NpNdarray (NdItem (NpInt z))) = Ok (PyInt z)) /\
  (forall x, NumpyEncoder.default (NpNdarray (NdItem (NpFloat x)))
             = Ok (PyFloat x)) /\
  (forall b, NumpyEncoder.default (NpNdarray (NdItem (NpBool b)))
             = Ok (PyBool b)) /\
  (forall a, NumpyEncoder.default (NpNdarray a) = Ok (tolist a) /\
             plain (tolist a) = true) /\
  (forall items, NumpyEncoder.default (NpObjectArray (ObjAxis items))
                 = Ok (PyList (map objects_tolist items))) /\
  (forall cls, NumpyEncoder.default (NpObjectArray (ObjItem cls))
               = Ok (PyObject cls)) /\
  (forall obj, recognized obj = false ->
     NumpyEncoder.default obj = super_default obj /\
     exists e, NumpyEncoder.default obj = Raise e /\ exn_type e = "TypeError").
Proof.
  repeat split; try reflexivity.
  - apply tolist_plain.
  - destruct obj; try discriminate; reflexivity.
  - destruct obj; try discriminate; apply super_default_raises.
Qed.

Lemma default_normalizes_witness :
  recognized (PyObject "Decimal") = false /\
  NumpyEncoder.default (PyObject "Decimal")
  = Raise {| exn_type := "TypeError";
             exn_str := "Object of type Decimal is not JSON serializable" |}.
Proof.
  split; [reflexivity |].
  destruct default_normalizes as (_ & _ & _ & _ & _ & _ & _ & _ & _ & H).
  destruct (H (PyObject "Decimal") eq_refl) as [-> _]. reflexivity.
Defined.

(** C7 as stated fails: an array with no axis, here the one holding
    the integer 5, is turned into that integer and not into a list. *)
Lemma zero_dimensional_array_is_no_list :
  NumpyEncoder.default (NpNdarray (NdItem (NpInt 5))) = Ok (PyInt 5) /\
  ~ (exists items,
       NumpyEncoder.default (NpNdarray (NdItem (NpInt 5))) = Ok (PyList items)).
Proof. split; [reflexivity |]. intros [items H]. discriminate H. Qed.

(** The encoder never consults the hook on a formatted result. *)
Lemma iterencode_words hook ds :
  traverse (iterencode hook) (map format_word ds) = Ok (map word_document ds).
Proof.
  induction ds as [| d ds IH]; [reflexivity |].
  cbn [map traverse]. change (iterencode hook (format_word d)) with (Ok (word_document d)).
  cbn [map traverse] in IH. rewrite IH. reflexivity.
Qed.

Lemma iterencode_format_result hook ds :
  iterencode hook (format_result ds) = Ok (result_document ds).
Proof.
  unfold format_result, result_document. cbn [iterencode traverse snd fst result_bind].
  rewrite iterencode_words. reflexivity.
Qed.

Lemma dumps_format_result ds : dumps (format_result ds) = Ok (result_document ds).
Proof. apply iterencode_format_result. Qed.



End Normalizer.

(** ** Strings *)

Section Strings.

Lemma split_segment c payload tail :
  has_char c payload = false -> ends_segment c tail = true ->
  exists rest, Str.split c (payload +:+ tail) = payload :: rest.
Proof.
  induction payload as [| c' payload IH]; simpl; intros Hno Hend.
  - destruct tail as [| c'' tail]; simpl in *; [now eexists |].
    rewrite Hend. now eexists.
  - apply orb_false_iff in Hno as [Hc Hno]. rewrite Hc.
    destruct (IH Hno Hend) as [rest ->]. now eexists.
Qed.

Lemma split_after_separator c pre s :
  has_char c pre = false ->
  Str.split c (pre +:+ String c s) = pre :: Str.split c s.
Proof.
  induction pre as [| c' pre IH]; simpl; intros Hno.
  - now rewrite Ascii.eqb_refl.
  - apply orb_false_iff in Hno as [Hc Hno]. now rewrite Hc, (IH Hno).
Qed.

(** The second segment of a split is what lies between the first
    separator and the next one, or the end. *)
Lemma split_second c pre payload tail :
  has_char c pre = false -> has_char c payload = false ->
  ends_segment c tail = true ->
  Str.split c (pre +:+ String c (payload +:+ tail)) !! 1%nat = Some payload.
Proof.
  intros Hpre Hpay Hend. rewrite (split_after_separator _ _ _ Hpre).
  destruct (split_segment _ _ _ Hpay Hend) as [rest ->]. reflexivity.
Qed.

End Strings.

(** ** The handlers *)

Section Handlers.

Context (lib : Platform).

Lemma keeps_ret {A} (a : A) : keeps_globals (ret a).
Proof. intros w. now split. Qed.

Lemma keeps_raise {A} e : keeps_globals (@raise A e).
Proof. intros w. now split. Qed.

Lemma keeps_lift {A} (r : result A) : keeps_globals (lift r).
Proof. intros w. now split. Qed.

Lemma keeps_bind {A B} (m : M A) (k : A -> M B) :
  keeps_globals m -> (forall a, keeps_globals (k a)) -> keeps_globals (bind m k).
Proof.
  intros Hm Hk w. unfold bind. specialize (Hm w).
  destruct (m w) as [w' [a | e]]; cbn [fst] in *; [| exact Hm].
  destruct (Hk a w') as [Ho Hi]. destruct Hm as [Ho' Hi']. split; congruence.
Qed.

Lemma keeps_write_file path data : keeps_globals (write_file path data).
Proof. intros w. now split. Qed.

Lemma keeps_base64_payload field : keeps_globals (base64_payload field).
Proof.
  unfold base64_payload. destruct (_ !! _); [apply keeps_ret | apply keeps_raise].
Qed.

Lemma keeps_save_image request now : keeps_globals (save_image lib request now).
Proof.
  unfold save_image. destruct (files request !! "image") as [file |].
  - apply keeps_bind; [apply keeps_write_file | intros; apply keeps_ret].
  - destruct (form request !! "image") as [field |]; [| apply keeps_ret].
    apply keeps_bind; [apply keeps_base64_payload | intros payload].
    apply keeps_bind; [apply keeps_lift | intros data].
    apply keeps_bind; [apply keeps_write_file | intros; apply keeps_ret].
Qed.

Lemma keeps_call_readtext path : keeps_globals (call_readtext path).
Proof.
  intros w. unfold call_readtext.
  destruct (ocr w) eqn:E; cbn [fst ocr is_initialized]; now split.
Qed.

Lemma keeps_remove_image path : keeps_globals (remove_image path).
Proof.
  intros w. unfold remove_image. destruct path as [p |]; [| now split].
  destruct (_ && _); now split.
Qed.

Lemma keeps_try_block request now : keeps_globals (try_block lib request now).
Proof.
  unfold try_block.
  apply keeps_bind; [apply keeps_save_image | intros path].
  apply keeps_bind; [apply keeps_call_readtext | intros ds].
  apply keeps_bind; [apply keeps_remove_image | intros _].
  apply keeps_bind; [apply keeps_lift | intros; apply keeps_ret].
Qed.

Lemma initialize_ocr_existing w e :
  ocr w = Some e -> initialize_ocr lib w = (w, Ok tt).
Proof. intros H. unfold initialize_ocr. now rewrite H. Qed.

Lemma initialize_ocr_flag w :
  is_initialized w = true -> is_initialized (fst (initialize_ocr lib w)) = true.
Proof.
  intros H. unfold initialize_ocr.
  destruct (ocr w); [exact H |]. destruct (Reader lib _); [reflexivity | exact H].
Qed.

(** Once the flag is set a request does not touch the globals. *)
Lemma process_ocr_globals request now w :
  is_initialized w = true ->
  ocr (fst (process_ocr lib request now w)) = ocr w /\
  is_initialized (fst (process_ocr lib request now w)) = is_initialized w.
Proof.
  intros H. unfold process_ocr. rewrite H. cbn [negb].
  destruct (_ && _); [split; [reflexivity | now symmetry] |].
  pose proof (keeps_try_block request now w) as Hk.
  destruct (try_block lib request now w) as [w1 [r | e]];
    cbn [fst] in *; destruct Hk; split; congruence.
Qed.

Lemma run_flag op w :
  is_initialized w = true -> is_initialized (run lib op w) = true.
Proof.
  intros H. destruct op as [| | request now]; cbn [run].
  - now apply initialize_ocr_flag.
  - exact H.
  - destruct (process_ocr_globals request now w H) as [_ ->]. exact H.
Qed.

Lemma run_engine op w :
  is_initialized w = true -> is_Some (ocr w) -> is_Some (ocr (run lib op w)).
Proof.
  intros H [e He]. destruct op as [| | request now]; cbn [run].
  - rewrite (initialize_ocr_existing _ _ He). cbn. now exists e.
  - now exists e.
  - destruct (process_ocr_globals request now w H) as [-> _]. now exists e.
Qed.

(** A running server has its engine and its flag set. *)
Lemma reachable_ready w :
  reachable lib w -> is_initialized w = true /\ is_Some (ocr w).
Proof.
  induction 1 as [fs w Hstart | op w _ [Hflag Hocr]].
  - unfold startup, initialize_ocr in Hstart. cbn [ocr] in Hstart.
    destruct (Reader lib _) as [reader | e]; inversion Hstart; subst.
    cbn. split; [reflexivity | now eexists].
  - split; [now apply run_flag | now apply run_engine].
Qed.

End Handlers.

Section Endpoint.

Context (lib : Platform).

(** With the flag set and an image part present the handler is its
    [try] statement. *)
Lemma process_ocr_with_image request now w :
  is_initialized w = true ->
  is_Some (files request !! "image") \/ is_Some (form request !! "image") ->
  process_ocr lib request now w =
    match try_block lib request now w with
    | (w1, Ok response) => (w1, Returned response)
    | (w1, Raise error) =>
        (w1, Returned (jsonify
               [("error", JStr ("Failed to process image: " +:+ exn_str error))]
               500))
    end.
Proof.
  intros Hflag Himage. unfold process_ocr. rewrite Hflag. cbn [negb].
  destruct Himage as [H | H]; rewrite (bool_decide_eq_true_2 _ H);
    cbn [negb andb]; [reflexivity |].
  now rewrite andb_false_r.
Qed.

(** Saving only ever adds the image file. *)
Lemma save_image_creates request now w w1 path :
  save_image lib request now w = (w1, Ok (Some path)) ->
  is_Some (disk w1 !! path) /\ readtext_calls w1 = readtext_calls w.
Proof.
  unfold save_image. destruct (files request !! "image") as [file |].
  - cbn. intros [= <- <-]. cbn. rewrite lookup_insert_eq. split; [eauto | done].
  - destruct (form request !! "image") as [field |]; [| discriminate].
    unfold bind, base64_payload.
    destruct (_ !! 1%nat) as [payload |]; cbn; [| discriminate].
    destruct (b64decode lib payload) as [data | e]; cbn; [| discriminate].
    intros [= <- <-]. cbn. rewrite lookup_insert_eq. split; [eauto | done].
Qed.

Lemma save_image_present request now w w1 path :
  save_image lib request now w = (w1, Ok (Some path)) ->
  is_Some (files request !! "image") \/ is_Some (form request !! "image").
Proof.
  unfold save_image. destruct (files request !! "image") as [file |]; [eauto |].
  destruct (form request !! "image") as [field |]; [eauto | discriminate].
Qed.

(** The [try] statement once the image is on disk: the engine is
    called on the saved path; its failure ends the block at once, its
    success is followed by the removal and the serialization. *)
Lemma try_block_after_save request now w w1 path e :
  save_image lib request now w = (w1, Ok path) ->
  ocr w = Some e ->
  try_block lib request now w =
    let called :=
      {| ocr := ocr w1; is_initialized := is_initialized w1; disk := disk w1;
         readtext_calls := readtext_calls w1 ++ [path] |} in
    match readtext e path (disk w1) with
    | Ok ds =>
        (fst (remove_image path called),
         Ok {| status := 200; body := result_document ds;
               content_type := "application/json" |})
    | Raise err => (called, Raise err)
    end.
Proof.
  intros Hsave Hocr. unfold try_block, bind at 1. rewrite Hsave.
  pose proof (keeps_save_image lib request now w) as [Hkeep _].
  rewrite Hsave in Hkeep. cbn [fst] in Hkeep.
  unfold bind at 1, call_readtext. rewrite Hkeep, Hocr. cbv zeta.
  destruct (readtext e path (disk w1)) as [ds | err]; [| reflexivity].
  unfold bind, lift, ret. rewrite dumps_format_result.
  destruct (remove_image path _) as [w2 [[] | err]] eqn:Hrm; [reflexivity |].
  exfalso. revert Hrm. unfold remove_image, os_remove.
  destruct path as [p |]; [destruct (_ && _) |]; discriminate.
Qed.

(** C1, what the code does on the failure branch.  When the image has
    been saved and the engine's [readtext] raises, the endpoint
    answers 500 with the engine's message in the [error] field, and
    the temp file is still on disk afterwards: the removal sits on the
    success branch only. *)
Theorem engine_failure_keeps_file request now w w1 path e err :
  is_initialized w = true ->
  ocr w = Some e ->
  save_image lib request now w = (w1, Ok (Some path)) ->
  readtext e (Some path) (disk w1) = Raise err ->
  snd (process_ocr lib request now w)
  = Returned (jsonify
      [("error", JStr ("Failed to process image: " +:+ exn_str err))] 500) /\
  is_Some (disk (fst (process_ocr lib request now w)) !! path).
Proof.
  intros Hflag Hocr Hsave Hraise.
  rewrite (process_ocr_with_image _ _ _ Hflag (save_image_present _ _ _ _ _ Hsave)).
  rewrite (try_block_after_save _ _ _ _ _ _ Hsave Hocr). cbv zeta.
  rewrite Hraise. cbn [fst snd disk]. split; [reflexivity |].
  apply (save_image_creates _ _ _ _ _ Hsave).
Qed.

Lemma remove_image_gone path w :
  path <> EmptyString -> disk (fst (remove_image (Some path) w)) !! path = None.
Proof.
  intros Hne. unfold remove_image, path_exists.
  apply String.eqb_neq in Hne. rewrite Hne. cbn [negb andb].
  case_bool_decide as Hex; cbn.
  - apply lookup_delete_eq.
  - destruct (disk w !! path) eqn:E; [| reflexivity]. exfalso. apply Hex. eauto.
Qed.

(** X20.  On the success branch the answer is 200 with the assembled
    document of the detections and the temp file is gone. *)
Lemma engine_success_removes_file request now w w1 path e ds :
  is_initialized w = true ->
  ocr w = Some e ->
  save_image lib request now w = (w1, Ok (Some path)) ->
  readtext e (Some path) (disk w1) = Ok ds ->
  path <> EmptyString ->
  snd (process_ocr lib request now w)
  = Returned {| status := 200; body := result_document ds;
                content_type := "application/json" |} /\
  disk (fst (process_ocr lib request now w)) !! path = None.
Proof.
  intros Hflag Hocr Hsave Hok Hne.
  rewrite (process_ocr_with_image _ _ _ Hflag (save_image_present _ _ _ _ _ Hsave)).
  rewrite (try_block_after_save _ _ _ _ _ _ Hsave Hocr). cbv zeta.
  rewrite Hok. cbn [fst snd]. split; [reflexivity |].
  now apply remove_image_gone.
Qed.

End Endpoint.

Lemma engine_failure_keeps_file_witness :
  let e := Fixture.engine_raising "corrupt image" in
  let lib := Fixture.platform e in
  let w := Fixture.started e in
  readtext e (Some "/tmp/scan.png")
    (disk (fst (save_image lib Fixture.upload 1700000000 w)))
  = Raise {| exn_type := "RuntimeError"; exn_str := "corrupt image" |} /\
  snd (process_ocr lib Fixture.upload 1700000000 w)
  = Returned (jsonify
      [("error", JStr "Failed to process image: corrupt image")] 500) /\
  is_Some (disk (fst (process_ocr lib Fixture.upload 1700000000 w))
             !! "/tmp/scan.png").
Proof.
  cbv zeta. split; [reflexivity |].
  apply (engine_failure_keeps_file
           (Fixture.platform (Fixture.engine_raising "corrupt image"))
           Fixture.upload 1700000000
           (Fixture.started (Fixture.engine_raising "corrupt image"))
           (fst (save_image
                   (Fixture.platform (Fixture.engine_raising "corrupt image"))
                   Fixture.upload 1700000000
                   (Fixture.started (Fixture.engine_raising "corrupt image"))))
           "/tmp/scan.png" (Fixture.engine_raising "corrupt image")
           {| exn_type := "RuntimeError"; exn_str := "corrupt image" |});
    vm_compute; reflexivity.
Defined.

Section Ingestion.

Context (lib : Platform).

(** C3, as amended.  In base64 mode the payload is what lies between
    the first comma of the form field and the next comma, or the end
    of the field when there is no further comma; it is base64-decoded
    and, when that succeeds, the bytes are written to
    image-[int(time.time())].png in the temporary directory. *)
Theorem save_image_base64 request now w field pre payload tail data :
  files request !! "image" = None ->
  form request !! "image" = Some field ->
  field = pre +:+ String "," (payload +:+ tail) ->
  has_char "," pre = false ->
  has_char "," payload = false ->
  ends_segment "," tail = true ->
  b64decode lib payload = Ok data ->
  let name := "image-" +:+ Str.of_int (Py.int now) +:+ ".png" in
  let path := path_join (gettempdir lib) name in
  save_image lib request now w
  = ({| ocr := ocr w; is_initialized := is_initialized w;
        disk := <[path := data]> (disk w);
        readtext_calls := readtext_calls w |}, Ok (Some path)) /\
  (path = gettempdir lib +:+ name \/ path = gettempdir lib +:+ "/" +:+ name).
Proof.
  intros Hfile Hform -> Hpre Hpay Hend Hdec name path. split.
  - unfold save_image. rewrite Hfile, Hform.
    unfold bind at 1, base64_payload.
    rewrite (split_second _ _ _ _ Hpre Hpay Hend).
    unfold ret at 1, bind at 1, lift. rewrite Hdec. reflexivity.
  - subst path. unfold path_join.
    change (Str.startswith_slash name) with false. cbv iota.
    destruct (_ || _); auto.
Qed.

End Ingestion.

Lemma save_image_base64_witness :
  let e := Fixture.engine_returning [] in
  let lib := Fixture.platform e in
  let field := "data:image/png;base64,aGk=" in
  b64decode lib "aGk=" = Ok Fixture.hi /\
  save_image lib (Fixture.data_uri field) (3400000001 # 2) (Fixture.started e)
  = ({| ocr := Some e; is_initialized := true;
        disk := {[ "/tmp/image-1700000000.png" := Fixture.hi ]};
        readtext_calls := [] |}, Ok (Some "/tmp/image-1700000000.png")).
Proof.
  cbv zeta. split; [reflexivity |].
  exact (proj1 (save_image_base64
    (Fixture.platform (Fixture.engine_returning []))
    (Fixture.data_uri "data:image/png;base64,aGk=") (3400000001 # 2)
    (Fixture.started (Fixture.engine_returning []))
    "data:image/png;base64,aGk=" "data:image/png;base64" "aGk=" EmptyString
    Fixture.hi ltac:(vm_compute; reflexivity) ltac:(vm_compute; reflexivity)
    eq_refl eq_refl eq_refl eq_refl eq_refl)).
Defined.

(** C3 as stated fails: with a second comma in the field, the payload
    handed to the decoder is the segment before that comma, not the
    rest of the field, and the file holds the decoding of that
    segment. *)
Lemma base64_payload_stops_at_second_comma :
  let e := Fixture.engine_returning [] in
  let field := "data:image/png;base64,aGk=,aGk=" in
  has_char "," field = true /\
  after_first "," field = Some "aGk=,aGk=" /\
  snd (base64_payload field (Fixture.started e)) = Ok "aGk=" /\
  Some "aGk=" <> after_first "," field /\
  disk (fst (save_image (Fixture.platform e) (Fixture.data_uri field)
               1700000000 (Fixture.started e)))
    !! "/tmp/image-1700000000.png"
  = Some Fixture.hi.
Proof. cbv zeta. repeat split; try discriminate; vm_compute; reflexivity. Qed.

(** ** The assembled response *)

Section Assembler.

(** C4.  The response follows the detections one for one: [text] is
    their texts joined by single spaces in engine order, [words] has
    one entry per detection, in the same order and carrying that
    detection's text unchanged and its box; the serialized document
    has the same shape. *)
Theorem response_follows_detections (ds : list Detection) :
  dict_get "text" (format_result ds)
  = Some (PyStr (Str.join " " (map text ds))) /\
  (exists words,
     dict_get "words" (format_result ds) = Some (PyList words) /\
     length words = length ds /\
     map (dict_get "text") words = map (fun d => Some (PyStr (text d))) ds /\
     words = map format_word ds) /\
  dumps (format_result ds) = Ok (result_document ds).
Proof.
  split; [reflexivity |]. split; [| apply dumps_format_result].
  exists (map format_word ds). split; [reflexivity |].
  split; [apply length_map |]. split; [| reflexivity].
  rewrite map_map. reflexivity.
Qed.

(** Two texts are joined by exactly one space, and nothing is trimmed
    or merged. *)
Lemma join_two a b : Str.join " " [a; b] = a +:+ " " +:+ b.
Proof. reflexivity. Qed.

Lemma format_word_region d1 d2 :
  region d1 = region d2 -> format_word d1 = format_word d2.
Proof.
  destruct d1, d2. unfold region. cbn. intros [= -> ->]. reflexivity.
Qed.

Lemma format_words_region ds1 ds2 :
  map region ds1 = map region ds2 ->
  map format_word ds1 = map format_word ds2 /\ map text ds1 = map text ds2.
Proof.
  revert ds2. induction ds1 as [| d1 ds1 IH]; intros [| d2 ds2]; cbn [map];
    try discriminate; [now split |].
  intros Hcons. apply (f_equal List.tl) in Hcons as Hds. cbn [List.tl] in Hds.
  apply (f_equal (List.hd (region d1))) in Hcons as Hd. cbn [List.hd] in Hd.
  destruct (IH _ Hds) as [-> ->]. rewrite (format_word_region _ _ Hd).
  apply (f_equal snd) in Hd. cbn [region snd] in Hd. rewrite Hd. now split.
Qed.

Lemma format_result_region ds1 ds2 :
  map region ds1 = map region ds2 -> format_result ds1 = format_result ds2.
Proof.
  intros H. destruct (format_words_region _ _ H) as [Hw Ht].
  unfold format_result. now rewrite Hw, Ht.
Qed.

Lemma result_document_region ds1 ds2 :
  map region ds1 = map region ds2 -> result_document ds1 = result_document ds2.
Proof.
  intros H. apply format_result_region in H.
  pose proof (dumps_format_result ds1) as H1.
  rewrite H, dumps_format_result in H1. congruence.
Qed.

(** C8.  Detections that differ in confidence only give the same
    response: the same dictionary and the same serialized document. *)
Theorem confidence_is_ignored (ds1 ds2 : list Detection) :
  map region ds1 = map region ds2 ->
  format_result ds1 = format_result ds2 /\
  dumps (format_result ds1) = dumps (format_result ds2).
Proof.
  intros H. rewrite (format_result_region _ _ H). split; reflexivity.
Qed.

Lemma confidence_is_ignored_witness :
  let ds1 := [Fixture.word "AK-74" (99 # 100); Fixture.word "Salewa" (1 # 2)] in
  let ds2 := [Fixture.word "AK-74" (1 # 10); Fixture.word "Salewa" 0] in
  map region ds1 = map region ds2 /\
  format_result ds1 = format_result ds2 /\
  dumps (format_result ds1) = dumps (format_result ds2).
Proof.
  cbv zeta. split; [reflexivity |].
  apply (confidence_is_ignored
           [Fixture.word "AK-74" (99 # 100); Fixture.word "Salewa" (1 # 2)]
           [Fixture.word "AK-74" (1 # 10); Fixture.word "Salewa" 0]).
  reflexivity.
Defined.

End Assembler.

(** ** The endpoint's contract *)

Section Contract.

Context (lib : Platform).

(** C5.  A request with no [image] part in its files and none in its
    form is answered 400 with an [error] message that names the field
    [image]; the world is left as it was, so no file is created and
    the engine is not called. *)
Theorem missing_image_rejected request now w :
  reachable lib w ->
  files request !! "image" = None ->
  form request !! "image" = None ->
  process_ocr lib request now w
  = (w, Returned (jsonify [("error", JStr missing_image_message)] 400)) /\
  mentions "image" missing_image_message = true /\
  disk (fst (process_ocr lib request now w)) = disk w /\
  readtext_calls (fst (process_ocr lib request now w)) = readtext_calls w.
Proof.
  intros Hreach Hfiles Hform.
  destruct (reachable_ready _ _ Hreach) as [Hflag _].
  assert (process_ocr lib request now w
          = (w, Returned (jsonify [("error", JStr missing_image_message)] 400)))
    as ->.
  { unfold process_ocr. rewrite Hflag, Hfiles, Hform. reflexivity. }
  repeat split.
Qed.

(** C9.  When the image was saved and the engine finds nothing, the
    endpoint answers 200 with an empty text and an empty word list. *)
Theorem no_detections_is_success request now w w1 path e :
  reachable lib w ->
  ocr w = Some e ->
  save_image lib request now w = (w1, Ok (Some path)) ->
  readtext e (Some path) (disk w1) = Ok [] ->
  snd (process_ocr lib request now w)
  = Returned {| status := 200;
                body := JObj [("text", JStr EmptyString); ("words", JArr [])];
                content_type := "application/json" |}.
Proof.
  intros Hreach Hocr Hsave Hnone.
  destruct (reachable_ready _ _ Hreach) as [Hflag _].
  rewrite (process_ocr_with_image _ _ _ _ Hflag
             (save_image_present _ _ _ _ _ _ Hsave)).
  rewrite (try_block_after_save _ _ _ _ _ _ _ Hsave Hocr). cbv zeta.
  rewrite Hnone. reflexivity.
Qed.

(** C10.  [initialize_ocr] does nothing when the engine exists, and
    no operation takes the flag from true back to false. *)
Theorem initialize_once_flag_stays :
  (forall w e, ocr w = Some e -> initialize_ocr lib w = (w, Ok tt)) /\
  (forall op w, is_initialized w = true -> is_initialized (run lib op w) = true).
Proof.
  split.
  - intros w e. apply initialize_ocr_existing.
  - intros op w. apply run_flag.
Qed.

End Contract.

Lemma missing_image_rejected_witness :
  let e := Fixture.engine_returning [] in
  let lib := Fixture.platform e in
  reachable lib (Fixture.started e) /\
  files Fixture.no_image !! "image" = None /\
  form Fixture.no_image !! "image" = None /\
  process_ocr lib Fixture.no_image 1700000000 (Fixture.started e)
  = (Fixture.started e,
     Returned (jsonify [("error", JStr missing_image_message)] 400)).
Proof.
  cbv zeta.
  assert (R : reachable (Fixture.platform (Fixture.engine_returning []))
                (Fixture.started (Fixture.engine_returning []))).
  { apply (reachable_startup _ ∅). vm_compute. reflexivity. }
  assert (F : files Fixture.no_image !! "image" = None)
    by (vm_compute; reflexivity).
  assert (G : form Fixture.no_image !! "image" = None)
    by (vm_compute; reflexivity).
  split; [exact R |]. split; [exact F |]. split; [exact G |].
  exact (proj1 (missing_image_rejected _ Fixture.no_image 1700000000 _ R F G)).
Defined.

Lemma no_detections_is_success_witness :
  let e := Fixture.engine_returning [] in
  let lib := Fixture.platform e in
  reachable lib (Fixture.started e) /\
  snd (save_image lib Fixture.upload 1700000000 (Fixture.started e))
  = Ok (Some "/tmp/scan.png") /\
  snd (process_ocr lib Fixture.upload 1700000000 (Fixture.started e))
  = Returned {| status := 200;
                body := JObj [("text", JStr EmptyString); ("words", JArr [])];
                content_type := "application/json" |}.
Proof.
  cbv zeta.
  assert (R : reachable (Fixture.platform (Fixture.engine_returning []))
                (Fixture.started (Fixture.engine_returning []))).
  { apply (reachable_startup _ ∅). vm_compute. reflexivity. }
  split; [exact R |]. split; [vm_compute; reflexivity |].
  apply (no_detections_is_success
           (Fixture.platform (Fixture.engine_returning []))
           Fixture.upload 1700000000
           (Fixture.started (Fixture.engine_returning []))
           (fst (save_image (Fixture.platform (Fixture.engine_returning []))
                   Fixture.upload 1700000000
                   (Fixture.started (Fixture.engine_returning []))))
           "/tmp/scan.png" (Fixture.engine_returning []) R);
    vm_compute; reflexivity.
Defined.

Lemma initialize_once_flag_stays_witness :
  let e := Fixture.engine_returning [] in
  let lib := Fixture.platform e in
  initialize_ocr lib (Fixture.started e) = (Fixture.started e, Ok tt) /\
  is_initialized (run lib (Ocr Fixture.upload 1700000000) (Fixture.started e))
  = true.
Proof.
  cbv zeta.
  destruct (initialize_once_flag_stays
              (Fixture.platform (Fixture.engine_returning []))) as [Hinit Hflag].
  split.
  - apply (Hinit _ (Fixture.engine_returning [])). reflexivity.
  - apply Hflag. reflexivity.
Defined.

(** ** Confidence does not flow to the client *)

Section Noninterference.

Context (lib : Platform).

Lemma save_image_disk_only request now w w' :
  disk w = disk w' ->
  snd (save_image lib request now w) = snd (save_image lib request now w') /\
  disk (fst (save_image lib request now w))
  = disk (fst (save_image lib request now w')).
Proof.
  intros Hdisk. unfold save_image.
  destruct (files request !! "image") as [file |].
  - cbn. now rewrite Hdisk.
  - destruct (form request !! "image") as [field |]; [| now split].
    unfold bind, base64_payload.
    destruct (_ !! 1%nat) as [payload |]; cbn; [| now split].
    destruct (b64decode lib payload) as [data | err]; cbn; [| now split].
    now rewrite Hdisk.
Qed.

Lemma remove_image_disk_only path w w' :
  disk w = disk w' ->
  disk (fst (remove_image path w)) = disk (fst (remove_image path w')).
Proof.
  intros Hdisk. unfold remove_image, path_exists.
  destruct path as [p |]; [| exact Hdisk]. rewrite Hdisk.
  destruct (_ && _); cbn; [now rewrite Hdisk | exact Hdisk].
Qed.

Lemma try_block_save_raises request now w w1 err :
  save_image lib request now w = (w1, Raise err) ->
  try_block lib request now w = (w1, Raise err).
Proof. intros H. unfold try_block, bind at 1. now rewrite H. Qed.

(** X21.  Two servers that differ only in the confidence values their
    engines report give every request the same response and leave the
    same files behind. *)
Lemma process_ocr_ignores_confidence request now w w' e e' :
  is_initialized w = true -> is_initialized w' = true ->
  ocr w = Some e -> ocr w' = Some e' ->
  disk w = disk w' ->
  (forall path fs, same_regions (readtext e path fs) (readtext e' path fs)) ->
  snd (process_ocr lib request now w) = snd (process_ocr lib request now w') /\
  disk (fst (process_ocr lib request now w))
  = disk (fst (process_ocr lib request now w')).
Proof.
  intros Hflag Hflag' Hocr Hocr' Hdisk Hsame.
  destruct (decide (is_Some (files request !! "image")
                    \/ is_Some (form request !! "image"))) as [Himage | Hnone].
  - rewrite !process_ocr_with_image by assumption.
    destruct (save_image_disk_only request now w w' Hdisk) as [Hres Hd].
    destruct (save_image lib request now w) as [w1 [path | err]] eqn:Hsave;
      destruct (save_image lib request now w') as [w1' [path' | err']] eqn:Hsave';
      cbn [fst snd] in Hres, Hd; try discriminate; injection Hres as <-.
    + rewrite (try_block_after_save _ _ _ _ _ _ _ Hsave Hocr),
        (try_block_after_save _ _ _ _ _ _ _ Hsave' Hocr'). cbv zeta.
      specialize (Hsame path (disk w1)). rewrite <- Hd.
      destruct (readtext e path (disk w1)) as [ds | err],
        (readtext e' path (disk w1)) as [ds' | err'];
        cbn [same_regions] in Hsame; try contradiction.
      * rewrite (result_document_region _ _ Hsame). cbn [fst snd].
        split; [reflexivity |]. now apply remove_image_disk_only.
      * subst err'. cbn [fst snd disk]. now split.
    + rewrite (try_block_save_raises _ _ _ _ _ Hsave),
        (try_block_save_raises _ _ _ _ _ Hsave'). now split.
  - assert (files request !! "image" = None) as Hf.
    { destruct (files request !! "image") eqn:E; [| reflexivity].
      exfalso. apply Hnone. left. eauto. }
    assert (form request !! "image" = None) as Hg.
    { destruct (form request !! "image") eqn:E; [| reflexivity].
      exfalso. apply Hnone. right. eauto. }
    unfold process_ocr. rewrite Hflag, Hflag', Hf, Hg. cbn. now split.
Qed.

End Noninterference.

(** * Further properties *)

(** ** Rounding and boxes *)

Section Rounding.

Local Open Scope Q_scope.

Lemma int_upper x : x < inject_Z (Py.int x + 1).
Proof.
  rewrite int_toward_zero. unfold toward_zero.
  destruct (Qle_bool 0 x); [apply Qlt_floor |].
  eapply Qle_lt_trans; [apply Qle_ceiling |].
  rewrite <- Zlt_Qlt. lia.
Qed.

Lemma int_lower x : inject_Z (Py.int x - 1) < x.
Proof.
  rewrite int_toward_zero. unfold toward_zero.
  destruct (Qle_bool 0 x); [| apply Qceiling_lt].
  eapply Qlt_le_trans; [| apply Qfloor_le].
  rewrite <- Zlt_Qlt. lia.
Qed.

Lemma int_below_nonneg x : 0 <= x -> inject_Z (Py.int x) <= x.
Proof. intros Hx. rewrite (int_floor_nonneg _ Hx). apply Qfloor_le. Qed.

Lemma int_shrinks x : Qabs (inject_Z (Py.int x)) <= Qabs x.
Proof.
  destruct (Qlt_le_dec x 0) as [Hx | Hx].
  - assert (Hle : x <= 0) by now apply Qlt_le_weak.
    assert (Hint : inject_Z (Py.int x) <= 0).
    { change 0 with (inject_Z 0). rewrite <- Zle_Qle, int_toward_zero.
      now apply toward_zero_neg. }
    rewrite (Qabs_neg _ Hint), (Qabs_neg _ Hle). apply Qopp_le_compat.
    rewrite int_toward_zero. unfold toward_zero.
    destruct (Qle_bool 0 x) eqn:Hb; [| apply Qle_ceiling].
    apply Qle_bool_iff in Hb. exfalso. apply (Qlt_irrefl x).
    eapply Qlt_le_trans; eassumption.
  - assert (Hint : 0 <= inject_Z (Py.int x)).
    { change 0 with (inject_Z 0). rewrite <- Zle_Qle, int_toward_zero.
      now apply toward_zero_nonneg. }
    rewrite (Qabs_pos _ Hint), (Qabs_pos _ Hx). now apply int_below_nonneg.
Qed.

(** X1.  Every coordinate of the box is less than one pixel away from
    the minimum or maximum it is taken from, and never further from
    zero than that value. *)
Theorem bbox_within_one_pixel (q : Quad) :
  let near (z : Z) (x : Q) :=
    inject_Z (z - 1) < x /\ x < inject_Z (z + 1) /\
    Qabs (inject_Z z) <= Qabs x in
  near (x0 (bbox q)) (Qmin (px (p0 q)) (px (p3 q))) /\
  near (y0 (bbox q)) (Qmin (py (p0 q)) (py (p1 q))) /\
  near (x1 (bbox q)) (Qmax (px (p1 q)) (px (p2 q))) /\
  near (y1 (bbox q)) (Qmax (py (p2 q)) (py (p3 q))).
Proof.
  cbv zeta. unfold bbox; cbn [x0 y0 x1 y1].
  rewrite <- !min_is_Qmin, <- !max_is_Qmax.
  repeat split; first [apply int_lower | apply int_upper | apply int_shrinks].
Qed.

Lemma int_of_integer z : Py.int (inject_Z z) = z.
Proof. unfold Py.int. cbn. apply Z.quot_1_r. Qed.

Lemma min_of_integers a b : Py.min (inject_Z a) (inject_Z b) = inject_Z (Z.min a b).
Proof.
  unfold Py.min. destruct (Qlt_le_dec _ _) as [H | H].
  - rewrite <- Zlt_Qlt in H. now rewrite Z.min_r by lia.
  - rewrite <- Zle_Qle in H. now rewrite Z.min_l by lia.
Qed.

Lemma max_of_integers a b : Py.max (inject_Z a) (inject_Z b) = inject_Z (Z.max a b).
Proof.
  unfold Py.max. destruct (Qlt_le_dec _ _) as [H | H].
  - rewrite <- Zlt_Qlt in H. now rewrite Z.max_r by lia.
  - rewrite <- Zle_Qle in H. now rewrite Z.max_l by lia.
Qed.

(** X2.  On corners with integer coordinates nothing is rounded: the
    box is the integer minimum and maximum of the selected corners,
    whatever their signs. *)
Theorem bbox_of_integer_corners a0 b0 a1 b1 a2 b2 a3 b3 :
  bbox {| p0 := int_point a0 b0; p1 := int_point a1 b1;
          p2 := int_point a2 b2; p3 := int_point a3 b3 |}
  = {| x0 := Z.min a0 a3; y0 := Z.min b0 b1;
       x1 := Z.max a1 a2; y1 := Z.max b2 b3 |}.
Proof.
  unfold bbox, int_point. cbn [p0 p1 p2 p3 px py].
  now rewrite !min_of_integers, !max_of_integers, !int_of_integer.
Qed.

Lemma min_le_r a b : Py.min a b <= b.
Proof. rewrite min_is_Qmin. apply Q.le_min_r. Qed.

Lemma min_nonneg a b : 0 <= a -> 0 <= b -> 0 <= Py.min a b.
Proof. intros Ha Hb. unfold Py.min. now destruct (Qlt_le_dec b a). Qed.

Lemma covers_between (q : Quad) (c : Point) :
  0 <= Py.min (px (p0 q)) (px (p3 q)) ->
  0 <= Py.min (py (p0 q)) (py (p1 q)) ->
  Py.min (px (p0 q)) (px (p3 q)) <= px c ->
  px c <= Py.max (px (p1 q)) (px (p2 q)) ->
  Py.min (py (p0 q)) (py (p1 q)) <= py c ->
  py c <= Py.max (py (p2 q)) (py (p3 q)) ->
  covers (bbox q) c.
Proof.
  intros Hx Hy Hxl Hxr Hyl Hyr. unfold covers, bbox; cbn [x0 y0 x1 y1].
  repeat split.
  - eapply Qle_trans; [now apply int_below_nonneg | exact Hxl].
  - eapply Qle_lt_trans; [exact Hxr | apply int_upper].
  - eapply Qle_trans; [now apply int_below_nonneg | exact Hyl].
  - eapply Qle_lt_trans; [exact Hyr | apply int_upper].
Qed.

(** X3.  Under the corner convention, with the left and top corners
    at non-negative coordinates, the box with its right and bottom
    pixel included contains all four corners. *)
Theorem bbox_covers_corners (q : Quad) :
  corner_convention q ->
  0 <= px (p0 q) -> 0 <= px (p3 q) -> 0 <= py (p0 q) -> 0 <= py (p1 q) ->
  covers (bbox q) (p0 q) /\ covers (bbox q) (p1 q) /\
  covers (bbox q) (p2 q) /\ covers (bbox q) (p3 q).
Proof.
  intros (H01 & H02 & H31 & H32 & V02 & V03 & V12 & V13) Hx0 Hx3 Hy0 Hy1.
  pose proof (min_nonneg _ _ Hx0 Hx3) as Hx.
  pose proof (min_nonneg _ _ Hy0 Hy1) as Hy.
  pose proof (min_le_l (px (p0 q)) (px (p3 q))) as Lx0.
  pose proof (min_le_r (px (p0 q)) (px (p3 q))) as Lx3.
  pose proof (min_le_l (py (p0 q)) (py (p1 q))) as Ly0.
  pose proof (min_le_r (py (p0 q)) (py (p1 q))) as Ly1.
  pose proof (max_ge_l (px (p1 q)) (px (p2 q))) as Rx1.
  pose proof (max_ge_r (px (p1 q)) (px (p2 q))) as Rx2.
  pose proof (max_ge_l (py (p2 q)) (py (p3 q))) as Ry2.
  pose proof (max_ge_r (py (p2 q)) (py (p3 q))) as Ry3.
  repeat split; apply (covers_between q); try assumption;
    eauto using Qle_trans.
Qed.

Lemma bbox_covers_corners_witness :
  corner_convention Fixture.box /\ covers (bbox Fixture.box) (p2 Fixture.box).
Proof.
  assert (H : corner_convention Fixture.box).
  { unfold corner_convention, Qle; cbn. lia. }
  split; [exact H |].
  refine (proj1 (proj2 (proj2
    (bbox_covers_corners Fixture.box H _ _ _ _)))); unfold Qle; cbn; lia.
Defined.

End Rounding.

(** ** What the encoder refuses *)

Section Encoder.

(** Induction on Python values that reaches list items and dictionary
    values. *)
Lemma pyval_nested_ind (P : pyval -> Prop) :
  P PyNone -> (forall b, P (PyBool b)) -> (forall z, P (PyInt z)) ->
  (forall x, P (PyFloat x)) -> (forall s, P (PyStr s)) ->
  (forall items, Forall P items -> P (PyList items)) ->
  (forall entries, Forall (fun kv => P (snd kv)) entries -> P (PyDict entries)) ->
  (forall z, P (NpInteger z)) -> (forall x, P (NpFloating x)) ->
  (forall a, P (NpNdarray a)) -> (forall a, P (NpObjectArray a)) ->
  (forall cls, P (PyObject cls)) ->
  forall v, P v.
Proof.
  intros HNone HBool HInt HFloat HStr HList HDict HNpI HNpF HNd HOa HObj.
  fix IH 1.
  intros [| b | z | x | s | items | entries | z | x | a | a | cls].
  - apply HNone.
  - apply HBool.
  - apply HInt.
  - apply HFloat.
  - apply HStr.
  - apply HList. induction items as [| v items IHitems]; constructor.
    + apply IH.
    + exact IHitems.
  - apply HDict. induction entries as [| [k v] entries IHentries]; constructor.
    + apply IH.
    + exact IHentries.
  - apply HNpI.
  - apply HNpF.
  - apply HNd.
  - apply HOa.
  - apply HObj.
Qed.

Lemma objarray_nested_ind (P : objarray -> Prop) :
  (forall cls, P (ObjItem cls)) ->
  (forall items, Forall P items -> P (ObjAxis items)) ->
  forall a, P a.
Proof.
  intros Hitem Haxis. fix IH 1. intros [cls | items].
  - apply Hitem.
  - apply Haxis. induction items as [| a items IHitems]; constructor.
    + apply IH.
    + exact IHitems.
Qed.

(** A traversal that succeeds has succeeded on every element. *)
Lemma traverse_ok {A B} (f : A -> result B) (ok : A -> bool) items ys :
  Forall (fun x => forall y, f x = Ok y -> ok x = true) items ->
  traverse f items = Ok ys -> forallb ok items = true.
Proof.
  intros Hall. revert ys. induction Hall as [| x items Hx _ IH]; intros ys;
    [reflexivity |].
  cbn [traverse forallb]. destruct (f x) as [y | e]; [| discriminate].
  rewrite (Hx y eq_refl). cbn [andb].
  destruct (traverse f items) as [ys' | e]; [| discriminate].
  intros _. now apply (IH ys').
Qed.

Lemma iterencode_objects hook a j :
  (forall cls j', hook (PyObject cls) <> Ok j') ->
  iterencode hook (objects_tolist a) = Ok j -> has_item a = false.
Proof.
  intros Hhook. revert j.
  induction a as [cls | items IH] using objarray_nested_ind; intros j.
  - cbn. intros H. now apply Hhook in H.
  - cbn [objects_tolist iterencode has_item].
    destruct (traverse (iterencode hook) (map objects_tolist items))
      as [js |] eqn:Htr; [intros _ | discriminate].
    revert js Htr. induction IH as [| a items Ha _ IHitems]; intros js;
      [reflexivity |].
    cbn [map traverse existsb].
    destruct (iterencode hook (objects_tolist a)) as [ja |] eqn:Hja;
      [| discriminate].
    rewrite (Ha ja eq_refl). cbn [orb].
    destruct (traverse (iterencode hook) (map objects_tolist items))
      as [js' |] eqn:Htr'; [| discriminate].
    intros _. now apply (IHitems js').
Qed.

Lemma iterencode_ok_serializable hook v j :
  (forall o j', hook o = Ok j' -> serializable o = true) ->
  iterencode hook v = Ok j -> serializable v = true.
Proof.
  intros Hhook. revert j.
  induction v as [| b | z | x | s | items IH | entries IH | z | x | a | a | cls]
    using pyval_nested_ind; intros j; try reflexivity.
  - cbn [iterencode serializable].
    destruct (traverse (iterencode hook) items) as [js |] eqn:Htr;
      [intros _ | discriminate].
    apply (traverse_ok (iterencode hook) serializable items js);
      [exact IH | exact Htr].
  - cbn [iterencode serializable].
    match goal with
    | |- result_bind (traverse ?f entries) _ = _ -> _ =>
        destruct (traverse f entries) as [ms |] eqn:Htr;
        [intros _ | discriminate];
        apply (traverse_ok f (fun kv => serializable (snd kv)) _ ms);
        [| exact Htr]
    end.
    clear Htr. induction IH as [| kv entries Hkv _ IHentries];
      constructor; [| exact IHentries].
    intros y. destruct (iterencode hook (snd kv)) as [jv |] eqn:Hjv;
      [| discriminate].
    intros _. now apply (Hkv jv).
  - cbn [iterencode]. apply Hhook.
  - cbn [iterencode]. apply Hhook.
Qed.

(** What [default] hands back is encoded only if it holds no unknown
    object. *)
Lemma hook_ok_serializable d o j :
  result_bind (NumpyEncoder.default o) (encode d) = Ok j ->
  serializable o = true.
Proof.
  destruct o; try discriminate; try reflexivity.
  cbn [NumpyEncoder.default result_bind serializable]. intros H.
  rewrite (iterencode_objects
             (match d with
              | O => fun _ =>
                  Raise {| exn_type := "RecursionError";
                           exn_str := "maximum recursion depth exceeded" |}
              | S d' => fun o =>
                  result_bind (NumpyEncoder.default o) (encode d')
              end) a j); [reflexivity | |].
  - intros cls j'. destruct d; discriminate.
  - destruct d; exact H.
Qed.

Lemma dumps_ok_serializable v j : dumps v = Ok j -> serializable v = true.
Proof.
  apply (iterencode_ok_serializable
           (fun o => result_bind (NumpyEncoder.default o) (encode 999))).
  intros o j'. apply hook_ok_serializable.
Qed.

(** X4.  Serialization never succeeds on a value that holds an object
    of an unknown class anywhere inside, be it in a list, a dictionary
    or an array of object dtype: [json.dumps] raises. *)
Theorem dumps_rejects_unknown_objects v :
  serializable v = false -> exists e, dumps v = Raise e.
Proof.
  intros Hno. destruct (dumps v) as [j | e] eqn:Hd; [| eauto].
  apply dumps_ok_serializable in Hd. congruence.
Qed.

Lemma dumps_rejects_unknown_objects_witness :
  exists e,
    dumps (PyDict [("text", PyStr "AK-74");
                   ("scores", NpObjectArray (ObjAxis [ObjItem "complex"]))])
    = Raise e.
Proof.
  apply (dumps_rejects_unknown_objects
           (PyDict [("text", PyStr "AK-74");
                    ("scores", NpObjectArray (ObjAxis [ObjItem "complex"]))])).
  reflexivity.
Defined.

End Encoder.

(** ** The running server *)

Section Service.

Context (lib : Platform).

Lemma try_block_response request now w w1 r :
  try_block lib request now w = (w1, Ok r) ->
  status r = 200 /\ content_type r = "application/json".
Proof.
  unfold try_block, bind, lift, ret.
  destruct (save_image lib request now w) as [wa [path | e]]; [| discriminate].
  destruct (call_readtext path wa) as [wb [ds | e]]; [| discriminate].
  destruct (remove_image path wb) as [wc [u | e]]; [| discriminate].
  destruct (dumps (format_result ds)) as [j | e]; [| discriminate].
  intros [= _ <-]. now split.
Qed.

(** X5.  A running server answers every OCR request: no exception
    leaves the handler, the status is 200, 400 or 500 and the content
    type is JSON. *)
Theorem running_server_answers request now w :
  reachable lib w ->
  exists r, snd (process_ocr lib request now w) = Returned r /\
            (status r = 200 \/ status r = 400 \/ status r = 500) /\
            content_type r = "application/json".
Proof.
  intros Hreach. destruct (reachable_ready _ _ Hreach) as [Hflag _].
  unfold process_ocr. rewrite Hflag. cbn [negb].
  destruct (_ && _).
  - eexists. split; [reflexivity |]. cbn. auto.
  - destruct (try_block lib request now w) as [w1 [r | e]] eqn:Htry.
    + destruct (try_block_response _ _ _ _ _ Htry) as [Hs Hc].
      exists r. cbn. auto.
    + eexists. split; [reflexivity |]. cbn. auto.
Qed.

(** X6.  On a running server the health check reports [ok] with
    [ocrInitialized] true and changes nothing. *)
Theorem health_check_running w :
  reachable lib w ->
  health_check w
  = (w, Returned (jsonify [("status", JStr "ok");
                           ("ocrInitialized", JBool true)] 200)).
Proof.
  intros Hreach. destruct (reachable_ready _ _ Hreach) as [Hflag _].
  unfold health_check. now rewrite Hflag.
Qed.

(** X7.  The engine is a singleton: once the server runs, no
    operation replaces the engine or clears the flag. *)
Theorem engine_is_kept op w :
  reachable lib w ->
  ocr (run lib op w) = ocr w /\ is_initialized (run lib op w) = true.
Proof.
  intros Hreach. destruct (reachable_ready _ _ Hreach) as [Hflag [e He]].
  split; [| now apply run_flag].
  destruct op as [| | request now]; cbn [run].
  - now rewrite (initialize_ocr_existing _ _ _ He).
  - reflexivity.
  - now destruct (process_ocr_globals lib request now w Hflag).
Qed.

End Service.

Lemma fixture_reachable e : reachable (Fixture.platform e) (Fixture.started e).
Proof. apply (reachable_startup _ ∅). reflexivity. Qed.

Lemma running_server_answers_witness :
  exists r,
    snd (process_ocr (Fixture.platform (Fixture.engine_raising "corrupt image"))
           Fixture.upload 1700000000
           (Fixture.started (Fixture.engine_raising "corrupt image")))
    = Returned r /\
    (status r = 200 \/ status r = 400 \/ status r = 500) /\
    content_type r = "application/json".
Proof.
  exact (running_server_answers _ Fixture.upload 1700000000 _
           (fixture_reachable (Fixture.engine_raising "corrupt image"))).
Defined.

Lemma health_check_running_witness :
  health_check (Fixture.started (Fixture.engine_returning []))
  = (Fixture.started (Fixture.engine_returning []),
     Returned (jsonify [("status", JStr "ok");
                        ("ocrInitialized", JBool true)] 200)).
Proof.
  exact (health_check_running _ _ (fixture_reachable (Fixture.engine_returning []))).
Defined.

Lemma engine_is_kept_witness :
  ocr (run (Fixture.platform Samples.engine_a)
         (Ocr Fixture.upload 1700000000) (Fixture.started Samples.engine_a))
  = Some Samples.engine_a.
Proof.
  exact (proj1 (engine_is_kept (Fixture.platform Samples.engine_a)
                  (Ocr Fixture.upload 1700000000) _
                  (fixture_reachable Samples.engine_a))).
Defined.

Lemma engine_success_removes_file_witness :
  let lib := Fixture.platform Samples.engine_a in
  let w := Fixture.started Samples.engine_a in
  snd (process_ocr lib Fixture.upload 1700000000 w)
  = Returned {| status := 200; body := result_document Samples.words;
                content_type := "application/json" |} /\
  disk (fst (process_ocr lib Fixture.upload 1700000000 w)) !! "/tmp/scan.png"
  = None.
Proof.
  cbv zeta.
  apply (engine_success_removes_file
           (Fixture.platform Samples.engine_a) Fixture.upload 1700000000
           (Fixture.started Samples.engine_a)
           (fst (save_image (Fixture.platform Samples.engine_a) Fixture.upload
                   1700000000 (Fixture.started Samples.engine_a)))
           "/tmp/scan.png" Samples.engine_a Samples.words);
    try (vm_compute; reflexivity).
  discriminate.
Defined.

Lemma process_ocr_ignores_confidence_witness :
  snd (process_ocr (Fixture.platform Samples.engine_a) Fixture.upload 1700000000
         (Fixture.started Samples.engine_a))
  = snd (process_ocr (Fixture.platform Samples.engine_a) Fixture.upload 1700000000
           (Fixture.started Samples.engine_b)).
Proof.
  refine (proj1 (process_ocr_ignores_confidence
                   (Fixture.platform Samples.engine_a) Fixture.upload 1700000000
                   (Fixture.started Samples.engine_a)
                   (Fixture.started Samples.engine_b)
                   Samples.engine_a Samples.engine_b
                   eq_refl eq_refl eq_refl eq_refl eq_refl _)).
  intros path fs. reflexivity.
Defined.

(** ** Ingestion: failures, priority and footprint *)

Section Footprint.

Context (lib : Platform).

Lemma split_without_separator c s :
  has_char c s = false -> Str.split c s = [s].
Proof.
  induction s as [| c' s IH]; simpl; intros Hno; [reflexivity |].
  apply orb_false_iff in Hno as [Hc Hno]. now rewrite Hc, (IH Hno).
Qed.

Lemma process_ocr_save_raises request now w w1 err :
  is_initialized w = true ->
  is_Some (files request !! "image") \/ is_Some (form request !! "image") ->
  save_image lib request now w = (w1, Raise err) ->
  process_ocr lib request now w
  = (w1, Returned (jsonify
           [("error", JStr ("Failed to process image: " +:+ exn_str err))] 500)).
Proof.
  intros Hflag Himage Hsave.
  rewrite (process_ocr_with_image _ _ _ _ Hflag Himage).
  now rewrite (try_block_save_raises _ _ _ _ _ _ Hsave).
Qed.

(** X8.  A form field with no comma in it is answered 500 with the
    message of the failed index; no file is written and the engine is
    not called. *)
Theorem field_without_comma_rejected request now w field :
  is_initialized w = true ->
  files request !! "image" = None ->
  form request !! "image" = Some field ->
  has_char "," field = false ->
  process_ocr lib request now w
  = (w, Returned (jsonify
          [("error", JStr "Failed to process image: list index out of range")]
          500)).
Proof.
  intros Hflag Hfiles Hform Hno.
  apply (process_ocr_save_raises request now w w
           {| exn_type := "IndexError"; exn_str := "list index out of range" |});
    [exact Hflag | right; rewrite Hform; eauto |].
  unfold save_image. rewrite Hfiles, Hform.
  unfold bind, base64_payload. now rewrite (split_without_separator _ _ Hno).
Qed.

(** X9.  A payload the decoder rejects is answered 500 with the
    decoder's message; no file is written and the engine is not
    called. *)
Theorem undecodable_payload_rejected request now w pre payload tail err :
  is_initialized w = true ->
  files request !! "image" = None ->
  form request !! "image" = Some (pre +:+ String "," (payload +:+ tail)) ->
  has_char "," pre = false ->
  has_char "," payload = false ->
  ends_segment "," tail = true ->
  b64decode lib payload = Raise err ->
  process_ocr lib request now w
  = (w, Returned (jsonify
          [("error", JStr ("Failed to process image: " +:+ exn_str err))] 500)).
Proof.
  intros Hflag Hfiles Hform Hpre Hpay Hend Hdec.
  apply (process_ocr_save_raises request now w w err);
    [exact Hflag | right; rewrite Hform; eauto |].
  unfold save_image. rewrite Hfiles, Hform.
  unfold bind at 1, base64_payload. rewrite (split_second _ _ _ _ Hpre Hpay Hend).
  unfold ret at 1, bind at 1, lift. now rewrite Hdec.
Qed.

(** X10.  An uploaded file part wins over a form field of the same
    name: the form does not influence the outcome. *)
Theorem upload_takes_priority request now w file other_form :
  files request !! "image" = Some file ->
  process_ocr lib request now w
  = process_ocr lib {| files := files request; form := other_form |} now w.
Proof.
  intros Hfile. unfold process_ocr, try_block, save_image. cbn [files form].
  now rewrite Hfile.
Qed.

Lemma save_image_path request now w w1 path :
  save_image lib request now w = (w1, Ok path) ->
  path = Some (image_path_of lib request now)
  \/ (path = None /\ disk w1 = disk w).
Proof.
  unfold save_image, image_path_of.
  destruct (files request !! "image") as [file |].
  - cbn. intros [= <- <-]. now left.
  - destruct (form request !! "image") as [field |].
    + unfold bind, base64_payload.
      destruct (_ !! 1%nat) as [payload |]; cbn; [| discriminate].
      destruct (b64decode lib payload) as [data | e]; cbn; [| discriminate].
      intros [= <- <-]. now left.
    + cbn. intros [= <- <-]. now right.
Qed.

Lemma save_image_elsewhere request now w p :
  p <> image_path_of lib request now ->
  disk (fst (save_image lib request now w)) !! p = disk w !! p.
Proof.
  intros Hp. unfold save_image, image_path_of in *.
  destruct (files request !! "image") as [file |].
  - cbn. now rewrite lookup_insert_ne.
  - destruct (form request !! "image") as [field |]; [| reflexivity].
    unfold bind, base64_payload.
    destruct (_ !! 1%nat) as [payload |]; cbn; [| reflexivity].
    destruct (b64decode lib payload) as [data | e]; cbn; [| reflexivity].
    now rewrite lookup_insert_ne.
Qed.

Lemma remove_image_elsewhere path w p :
  path <> Some p ->
  disk (fst (remove_image path w)) !! p = disk w !! p.
Proof.
  intros Hp. unfold remove_image. destruct path as [q |]; [| reflexivity].
  destruct (_ && _); [| reflexivity]. cbn.
  apply lookup_delete_ne. congruence.
Qed.

Lemma try_block_elsewhere request now w p :
  p <> image_path_of lib request now ->
  disk (fst (try_block lib request now w)) !! p = disk w !! p.
Proof.
  intros Hp. pose proof (save_image_elsewhere request now w p Hp) as Hsave.
  unfold try_block, bind.
  destruct (save_image lib request now w) as [wa [path | e]] eqn:Hs;
    cbn [fst] in *; [| exact Hsave].
  assert (Hpath : path <> Some p).
  { destruct (save_image_path _ _ _ _ _ Hs) as [-> | [-> _]]; congruence. }
  unfold call_readtext.
  destruct (ocr wa) as [reader |]; [| exact Hsave].
  destruct (readtext reader path (disk wa)) as [ds | e]; [| exact Hsave].
  match goal with
  | |- context [remove_image path ?called] =>
      pose proof (remove_image_elsewhere path called p Hpath) as Hrm;
      destruct (remove_image path called) as [wc [u | e]]
  end; cbn [fst disk] in Hrm; [| cbn [fst]; rewrite Hrm; exact Hsave].
  unfold lift, ret. destruct (dumps _); cbn [fst]; rewrite Hrm; exact Hsave.
Qed.

(** X11.  A request touches one path at most: every other file on
    disk is the same before and after, whatever the outcome. *)
Theorem other_files_untouched request now w p :
  is_initialized w = true ->
  p <> image_path_of lib request now ->
  disk (fst (process_ocr lib request now w)) !! p = disk w !! p.
Proof.
  intros Hflag Hp. unfold process_ocr. rewrite Hflag. cbn [negb].
  destruct (_ && _); [reflexivity |].
  pose proof (try_block_elsewhere request now w p Hp) as Htry.
  destruct (try_block lib request now w) as [w1 [r | e]]; exact Htry.
Qed.

(** X12.  When the image was saved the engine is called exactly once,
    on the saved path, whether it then succeeds or raises. *)
Theorem engine_called_once request now w w1 path e :
  is_initialized w = true ->
  ocr w = Some e ->
  save_image lib request now w = (w1, Ok (Some path)) ->
  readtext_calls (fst (process_ocr lib request now w))
  = (readtext_calls w ++ [Some path])%list.
Proof.
  intros Hflag Hocr Hsave.
  rewrite (process_ocr_with_image _ _ _ _ Hflag
             (save_image_present _ _ _ _ _ _ Hsave)).
  rewrite (try_block_after_save _ _ _ _ _ _ _ Hsave Hocr). cbv zeta.
  destruct (save_image_creates _ _ _ _ _ _ Hsave) as [_ Hcalls].
  destruct (readtext e (Some path) (disk w1)) as [ds | err]; cbn [fst];
    [| cbn; now rewrite Hcalls].
  unfold remove_image, os_remove. destruct (_ && _); cbn; now rewrite Hcalls.
Qed.

Lemma prefix_append a b : String.prefix a (a +:+ b) = true.
Proof.
  induction a as [| c a IH]; simpl; [now destruct b |].
  destruct (ascii_dec c c) as [_ | Hne]; [exact IH | congruence].
Qed.

Lemma path_join_under a b :
  Str.startswith_slash b = false -> String.prefix a (path_join a b) = true.
Proof.
  intros Hb. unfold path_join. rewrite Hb.
  destruct (_ || _); apply prefix_append.
Qed.

(** X13.  That one path lies under the temporary directory, provided
    the sanitized upload name does not start with a slash. *)
Theorem image_path_under_tempdir request now :
  (forall file, files request !! "image" = Some file ->
                Str.startswith_slash (secure_filename lib (filename file)) = false) ->
  String.prefix (gettempdir lib) (image_path_of lib request now) = true.
Proof.
  intros Hname. unfold image_path_of.
  destruct (files request !! "image") as [file |].
  - apply path_join_under. now apply Hname.
  - apply path_join_under. reflexivity.
Qed.

End Footprint.

Lemma field_without_comma_rejected_witness :
  let e := Fixture.engine_returning [] in
  has_char "," "aGk=" = false /\
  process_ocr (Fixture.platform e) (Fixture.data_uri "aGk=") 1700000000
    (Fixture.started e)
  = (Fixture.started e,
     Returned (jsonify
       [("error", JStr "Failed to process image: list index out of range")] 500)).
Proof.
  cbv zeta. split; [reflexivity |].
  apply (field_without_comma_rejected
           (Fixture.platform (Fixture.engine_returning []))
           (Fixture.data_uri "aGk=") 1700000000
           (Fixture.started (Fixture.engine_returning [])) "aGk=");
    vm_compute; reflexivity.
Defined.

Lemma undecodable_payload_rejected_witness :
  let e := Fixture.engine_returning [] in
  process_ocr (Fixture.platform e) (Fixture.data_uri "data:text/plain,hello")
    1700000000 (Fixture.started e)
  = (Fixture.started e,
     Returned (jsonify
       [("error", JStr "Failed to process image: Incorrect padding")] 500)).
Proof.
  cbv zeta.
  apply (undecodable_payload_rejected
           (Fixture.platform (Fixture.engine_returning []))
           (Fixture.data_uri "data:text/plain,hello") 1700000000
           (Fixture.started (Fixture.engine_returning []))
           "data:text/plain" "hello" EmptyString
           {| exn_type := "binascii.Error"; exn_str := "Incorrect padding" |});
    vm_compute; reflexivity.
Defined.

Lemma upload_takes_priority_witness :
  let lib := Fixture.platform Samples.engine_a in
  process_ocr lib Samples.both_parts 1700000000 (Fixture.started Samples.engine_a)
  = process_ocr lib {| files := files Samples.both_parts; form := ∅ |}
      1700000000 (Fixture.started Samples.engine_a).
Proof.
  cbv zeta.
  apply (upload_takes_priority (Fixture.platform Samples.engine_a)
           Samples.both_parts 1700000000 (Fixture.started Samples.engine_a)
           {| filename := "scan.png"; stream := Fixture.hi |} ∅).
  vm_compute. reflexivity.
Defined.

Lemma other_files_untouched_witness :
  let e := Fixture.engine_raising "corrupt image" in
  let w := {| ocr := Some e; is_initialized := true;
              disk := {[ "/tmp/notes.txt" := Fixture.hi ]};
              readtext_calls := [] |} in
  disk (fst (process_ocr (Fixture.platform e) Fixture.upload 1700000000 w))
    !! "/tmp/notes.txt"
  = disk w !! "/tmp/notes.txt".
Proof.
  cbv zeta.
  apply (other_files_untouched
           (Fixture.platform (Fixture.engine_raising "corrupt image"))
           Fixture.upload 1700000000).
  - reflexivity.
  - intros H. vm_compute in H. discriminate H.
Defined.

Lemma engine_called_once_witness :
  let lib := Fixture.platform Samples.engine_a in
  readtext_calls
    (fst (process_ocr lib Fixture.upload 1700000000
            (Fixture.started Samples.engine_a)))
  = [Some "/tmp/scan.png"].
Proof.
  cbv zeta.
  apply (engine_called_once (Fixture.platform Samples.engine_a)
           Fixture.upload 1700000000 (Fixture.started Samples.engine_a)
           (fst (save_image (Fixture.platform Samples.engine_a) Fixture.upload
                   1700000000 (Fixture.started Samples.engine_a)))
           "/tmp/scan.png" Samples.engine_a);
    vm_compute; reflexivity.
Defined.

Lemma image_path_under_tempdir_witness :
  String.prefix "/tmp"
    (image_path_of (Fixture.platform Samples.engine_a) Fixture.upload 1700000000)
  = true.
Proof.
  apply (image_path_under_tempdir (Fixture.platform Samples.engine_a)
           Fixture.upload 1700000000).
  intros file H. vm_compute in H. injection H as <-. reflexivity.
Defined.

(** ** The joined text *)

Section JoinedText.

Lemma split_join_space parts :
  parts <> [] ->
  Forall (fun s => has_char " " s = false) parts ->
  Str.split " " (Str.join " " parts) = parts.
Proof.
  intros Hne Hall. induction Hall as [| s rest Hs Hrest IH]; [congruence |].
  destruct rest as [| s' rest].
  - cbn [Str.join]. now apply split_without_separator.
  - change (Str.join " " (s :: s' :: rest))
      with (s +:+ String " " (Str.join " " (s' :: rest))).
    rewrite (split_after_separator _ _ _ Hs). f_equal. now apply IH.
Qed.

(** X14.  When there is at least one detection and no detected text
    holds a space, splitting the response's [text] at spaces gives the
    detected texts back, one per word and in order. *)
Theorem text_splits_back (ds : list Detection) :
  ds <> [] ->
  Forall (fun d => has_char " " (text d) = false) ds ->
  exists joined,
    dict_get "text" (format_result ds) = Some (PyStr joined) /\
    Str.split " " joined = map text ds.
Proof.
  intros Hne Hall. eexists. split; [reflexivity |].
  apply split_join_space.
  - destruct ds; [congruence | discriminate].
  - clear Hne. induction Hall; cbn [map]; constructor; assumption.
Qed.

Lemma text_splits_back_witness :
  exists joined,
    dict_get "text" (format_result Samples.words) = Some (PyStr joined) /\
    Str.split " " joined = ["AK-74"; "Salewa"].
Proof.
  apply (text_splits_back Samples.words); [discriminate |].
  repeat constructor.
Defined.

End JoinedText.

(** ** The greeting function *)

Section GreetingProperties.

Context (py_str : json -> string).

Lemma has_key_find {A} key (pairs : list (string * A)) :
  has_key key pairs = true ->
  exists x, snd <$> List.find (fun kv => String.eqb (fst kv) key) pairs = Some x.
Proof.
  unfold has_key. induction pairs as [| kv pairs IH]; cbn; [discriminate |].
  destruct (String.eqb (fst kv) key); cbn; [eauto | exact IH].
Qed.

Lemma no_key_find {A} key (pairs : list (string * A)) :
  has_key key pairs = false ->
  snd <$> List.find (fun kv => String.eqb (fst kv) key) pairs = None.
Proof.
  unfold has_key. induction pairs as [| kv pairs IH]; cbn; [reflexivity |].
  destruct (String.eqb (fst kv) key); cbn; [discriminate | exact IH].
Qed.

Lemma has_key_rev {A} key (pairs : list (string * A)) :
  has_key key (rev pairs) = has_key key pairs.
Proof.
  unfold has_key. apply eq_true_iff_eq. rewrite !existsb_exists.
  split; intros (kv & Hin & Hkv); exists kv; split; try assumption.
  - now rewrite in_rev.
  - now rewrite <- in_rev.
Qed.

Lemma has_key_lookup_last {A} key (pairs : list (string * A)) :
  has_key key pairs = true -> exists x, lookup_last key pairs = Some x.
Proof. intros H. apply has_key_find. now rewrite has_key_rev. Qed.

Lemma lookup_last_has_key {A} key (pairs : list (string * A)) x :
  lookup_last key pairs = Some x -> has_key key pairs = true.
Proof.
  intros H. destruct (has_key key pairs) eqn:E; [reflexivity |].
  rewrite <- has_key_rev in E. unfold lookup_last in H.
  now rewrite (no_key_find _ _ E) in H.
Qed.

(** The name taken from the query string, [World] when there is none. *)
Lemma greeting_from_args request :
  match get_json request with
  | None => True
  | Some v => truthy v = false \/ contains "name" v = Ok false
  end ->
  hello_http py_str request
  = Ok ("Hello "
        +:+ match first_value "name" (args request) with
            | Some value => value
            | None => "World"
            end
        +:+ "!").
Proof.
  intros Hjson. unfold hello_http.
  assert (match get_json request with
          | Some v =>
              if truthy v then
                result_bind (contains "name" v) (fun found =>
                  if found then result_bind (getitem "name" v) (fun x => Ok (Some x))
                  else Ok None)
              else Ok None
          | None => Ok None
          end = Ok None) as ->.
  { destruct (get_json request) as [v |]; [| reflexivity].
    destruct (truthy v); [| reflexivity].
    destruct Hjson as [Hf | ->]; [discriminate | reflexivity]. }
  cbn [result_bind]. unfold first_value.
  destruct (args request) as [| kv pairs]; [reflexivity |].
  destruct (has_key "name" (kv :: pairs)) eqn:Hkey.
  - destruct (has_key_find _ _ Hkey) as [value Hv].
    unfold first_value. now rewrite Hv.
  - now rewrite (no_key_find _ _ Hkey).
Qed.

Lemma greeting_prefers_json_aux request members v :
  get_json request = Some (JObj members) ->
  lookup_last "name" members = Some v ->
  hello_http py_str request = Ok ("Hello " +:+ format_field py_str v +:+ "!").
Proof.
  intros Hjson Hname. unfold hello_http. rewrite Hjson.
  pose proof (lookup_last_has_key _ _ _ Hname) as Hkey.
  assert (truthy (JObj members) = true) as ->.
  { destruct members; [discriminate | reflexivity]. }
  cbn [contains getitem result_bind]. rewrite Hkey, Hname. reflexivity.
Qed.

(** X15.  A [name] member of a JSON object body is what gets greeted,
    whatever the query string says. *)
Theorem greeting_prefers_json request members v :
  get_json request = Some (JObj members) ->
  lookup_last "name" members = Some v ->
  hello_http py_str request = Ok ("Hello " +:+ format_field py_str v +:+ "!").
Proof. apply greeting_prefers_json_aux. Qed.

(** X16.  With no body, a falsy body, or a body in which [name] is
    not found, the greeting uses the first [name] of the query string,
    and [World] when the query string has none. *)
Theorem greeting_falls_back request :
  match get_json request with
  | None => True
  | Some v => truthy v = false \/ contains "name" v = Ok false
  end ->
  hello_http py_str request
  = Ok ("Hello "
        +:+ match first_value "name" (args request) with
            | Some value => value
            | None => "World"
            end
        +:+ "!").
Proof. apply greeting_from_args. Qed.

(** X17.  The greeting function raises exactly on a JSON body that is
    a non-zero number, [true], or a non-empty string or array in which
    [name] is found; what it raises is [TypeError]. *)
Theorem greeting_raises_exactly request :
  match hello_http py_str request with
  | Ok _ => forall v, get_json request = Some v -> breaks_greeting v = false
  | Raise e =>
      exn_type e = "TypeError" /\
      exists v, get_json request = Some v /\ breaks_greeting v = true
  end.
Proof.
  destruct (get_json request) as [v |] eqn:Hjson.
  - destruct (truthy v) eqn:Htruthy.
    + destruct v as [| b | z | x | s | items | members].
      * discriminate Htruthy.
      * unfold hello_http. rewrite Hjson, Htruthy. cbn [contains result_bind].
        split; [reflexivity |]. eexists; split; [reflexivity |].
        unfold breaks_greeting. now rewrite Htruthy.
      * unfold hello_http. rewrite Hjson, Htruthy. cbn [contains result_bind].
        split; [reflexivity |]. eexists; split; [reflexivity |].
        unfold breaks_greeting. now rewrite Htruthy.
      * unfold hello_http. rewrite Hjson, Htruthy. cbn [contains result_bind].
        split; [reflexivity |]. eexists; split; [reflexivity |].
        unfold breaks_greeting. now rewrite Htruthy.
      * destruct (mentions "name" s) eqn:Hm.
        { unfold hello_http. rewrite Hjson, Htruthy.
          cbn [contains result_bind]. rewrite Hm. cbn [getitem result_bind].
          split; [reflexivity |]. eexists; split; [reflexivity |].
          unfold breaks_greeting. now rewrite Htruthy, Hm. }
        { rewrite (greeting_from_args request)
            by (rewrite Hjson; right; cbn [contains]; now rewrite Hm).
          intros v [= <-]. unfold breaks_greeting. now rewrite Htruthy, Hm. }
      * destruct (existsb (is_str "name") items) eqn:Hm.
        { unfold hello_http. rewrite Hjson, Htruthy.
          cbn [contains result_bind]. rewrite Hm. cbn [getitem result_bind].
          split; [reflexivity |]. eexists; split; [reflexivity |].
          unfold breaks_greeting. now rewrite Htruthy, Hm. }
        { rewrite (greeting_from_args request)
            by (rewrite Hjson; right; cbn [contains]; now rewrite Hm).
          intros v [= <-]. unfold breaks_greeting. now rewrite Htruthy, Hm. }
      * destruct (has_key "name" members) eqn:Hkey.
        { destruct (has_key_lookup_last _ _ Hkey) as [x Hx].
          rewrite (greeting_prefers_json_aux request members x Hjson Hx).
          intros v [= <-]. unfold breaks_greeting. now rewrite Htruthy. }
        { rewrite (greeting_from_args request)
            by (rewrite Hjson; right; cbn [contains]; now rewrite Hkey).
          intros v [= <-]. unfold breaks_greeting. now rewrite Htruthy. }
    + rewrite (greeting_from_args request) by (rewrite Hjson; now left).
      intros v' [= <-]. unfold breaks_greeting. now rewrite Htruthy.
  - rewrite (greeting_from_args request) by now rewrite Hjson.
    intros v [=].
Qed.

End GreetingProperties.

Lemma greeting_prefers_json_witness :
  hello_http Samples.str_of
    {| get_json := Some (JObj [("name", JStr "Ada")]); args := [("name", "Bob")] |}
  = Ok "Hello Ada!".
Proof.
  exact (greeting_prefers_json Samples.str_of
           {| get_json := Some (JObj [("name", JStr "Ada")]);
              args := [("name", "Bob")] |}
           [("name", JStr "Ada")] (JStr "Ada") eq_refl eq_refl).
Defined.

Lemma greeting_falls_back_witness :
  hello_http Samples.str_of
    {| get_json := Some (JObj [("id", JInt 7)]); args := [("name", "Bob")] |}
  = Ok "Hello Bob!".
Proof.
  exact (greeting_falls_back Samples.str_of
           {| get_json := Some (JObj [("id", JInt 7)]); args := [("name", "Bob")] |}
           (or_intror eq_refl)).
Defined.

Lemma greeting_raises_exactly_witness :
  breaks_greeting (JObj [("name", JInt 7)]) = false.
Proof.
  exact (greeting_raises_exactly Samples.str_of
           {| get_json := Some (JObj [("name", JInt 7)]); args := [] |}
           (JObj [("name", JInt 7)]) eq_refl).
Defined.

(** ** What a request leaves on disk, and under which name *)

Section Disk.

Context (lib : Platform).

Lemma save_image_writes request now w w1 path :
  save_image lib request now w = (w1, Ok (Some path)) ->
  exists data, disk w1 = <[path := data]> (disk w).
Proof.
  unfold save_image. destruct (files request !! "image") as [file |].
  - cbn. intros [= <- <-]. cbn. eauto.
  - destruct (form request !! "image") as [field |]; [| discriminate].
    unfold bind, base64_payload.
    destruct (_ !! 1%nat) as [payload |]; cbn; [| discriminate].
    destruct (b64decode lib payload) as [data | e]; cbn; [| discriminate].
    intros [= <- <-]. cbn. eauto.
Qed.

(** X18.  A successful request leaves the disk as it found it, except
    that no file is left at the image's path: a file that was already
    there under that name is gone too. *)
Theorem success_clears_image_path request now w w1 path e ds :
  is_initialized w = true ->
  ocr w = Some e ->
  save_image lib request now w = (w1, Ok (Some path)) ->
  readtext e (Some path) (disk w1) = Ok ds ->
  path <> EmptyString ->
  disk (fst (process_ocr lib request now w)) = delete path (disk w).
Proof.
  intros Hflag Hocr Hsave Hok Hne.
  rewrite (process_ocr_with_image _ _ _ _ Hflag
             (save_image_present _ _ _ _ _ _ Hsave)).
  rewrite (try_block_after_save _ _ _ _ _ _ _ Hsave Hocr). cbv zeta.
  rewrite Hok. cbn [fst].
  destruct (save_image_writes _ _ _ _ _ Hsave) as [data Hdisk].
  unfold remove_image, path_exists. cbn [disk].
  apply String.eqb_neq in Hne. rewrite Hne. cbn [negb andb].
  rewrite bool_decide_eq_true_2
    by (rewrite Hdisk, lookup_insert_eq; eauto).
  cbn. rewrite Hdisk. apply delete_insert_eq.
Qed.

Lemma length_append a b :
  String.length (a +:+ b) = (String.length a + String.length b)%nat.
Proof. induction a as [| c a IH]; simpl; [reflexivity | now rewrite IH]. Qed.

Lemma append_cancel_r a b c : a +:+ c = b +:+ c -> a = b.
Proof.
  revert b. induction a as [| x a IH]; intros [| y b] H.
  - reflexivity.
  - apply (f_equal String.length) in H. rewrite !length_append in H.
    simpl in H. lia.
  - apply (f_equal String.length) in H. rewrite !length_append in H.
    simpl in H. lia.
  - change (String x (a +:+ c) = String y (b +:+ c)) in H.
    injection H as -> H. f_equal. now apply IH.
Qed.

Lemma of_int_injective a b : Str.of_int a = Str.of_int b -> a = b.
Proof.
  unfold Str.of_int. intros H.
  assert (Hnil : forall z, Z.to_int z <> Decimal.Pos Decimal.Nil
                           /\ Z.to_int z <> Decimal.Neg Decimal.Nil).
  { intros [| p | p]; cbn; split; try discriminate;
      intros [= Hp]; exact (DecimalPos.Unsigned.to_uint_nonnil _ Hp). }
  apply (f_equal NilZero.int_of_string) in H.
  rewrite !NilZero.isi in H by apply Hnil.
  injection H as H. apply (f_equal Z.of_int) in H.
  now rewrite !DecimalZ.of_to in H.
Qed.

(** X19.  In base64 mode the file name is fixed by the whole second
    of the clock: two requests get the same path exactly when their
    clock readings truncate to the same second. *)
Theorem base64_path_per_second request now1 now2 :
  files request !! "image" = None ->
  image_path_of lib request now1 = image_path_of lib request now2
  <-> Py.int now1 = Py.int now2.
Proof.
  intros Hfiles. unfold image_path_of. rewrite Hfiles. split.
  - unfold path_join.
    change (Str.startswith_slash ("image-" +:+ ?x)) with false. cbv iota.
    intros H. apply of_int_injective.
    destruct (_ || _).
    + apply String.app_inj in H. injection H as H.
      change (Str.of_int (Py.int now1) +:+ ".png"
              = Str.of_int (Py.int now2) +:+ ".png") in H.
      now apply append_cancel_r in H.
    + apply String.app_inj in H. injection H as H.
      change (Str.of_int (Py.int now1) +:+ ".png"
              = Str.of_int (Py.int now2) +:+ ".png") in H.
      now apply append_cancel_r in H.
  - now intros ->.
Qed.

End Disk.

Lemma success_clears_image_path_witness :
  let e := Samples.engine_a in
  let w := {| ocr := Some e; is_initialized := true;
              disk := {[ "/tmp/scan.png" := [] ]};
              readtext_calls := [] |} in
  disk (fst (process_ocr (Fixture.platform e) Fixture.upload 1700000000 w)) = ∅.
Proof.
  cbv zeta.
  rewrite (success_clears_image_path (Fixture.platform Samples.engine_a)
             Fixture.upload 1700000000
             {| ocr := Some Samples.engine_a; is_initialized := true;
                disk := {[ "/tmp/scan.png" := [] ]}; readtext_calls := [] |}
             (fst (save_image (Fixture.platform Samples.engine_a) Fixture.upload
                     1700000000
                     {| ocr := Some Samples.engine_a; is_initialized := true;
                        disk := {[ "/tmp/scan.png" := [] ]};
                        readtext_calls := [] |}))
             "/tmp/scan.png" Samples.engine_a Samples.words);
    try (vm_compute; reflexivity).
  discriminate.
Defined.

Lemma base64_path_per_second_witness :
  image_path_of (Fixture.platform Samples.engine_a)
    (Fixture.data_uri "data:image/png;base64,aGk=") (3400000001 # 2)
  = image_path_of (Fixture.platform Samples.engine_a)
      (Fixture.data_uri "data:image/png;base64,aGk=") 1700000000.
Proof.
  apply (base64_path_per_second (Fixture.platform Samples.engine_a)
           (Fixture.data_uri "data:image/png;base64,aGk=")
           (3400000001 # 2) 1700000000);
    vm_compute; reflexivity.
Defined.
